(** * The transactional stock ledger of VSOL-MiNi

    A shallow embedding of the API routes that keep the stock ledger:
    - [PurchaseApi]  : the purchase route   (src/pages/api/auth.js, l.54-103)
    - [SalesApi]     : the sales route      (src/unnamed/part_002, l.120-188)
    - [InventoryApi] : the inventory route  (src/unnamed/part_004)
    - [ExpensesApi]  : the expenses route   (src/pages/api/expenses.js)
    - [ReportsApi]   : the reports route    (src/unnamed/part_003, l.46-93)
    over the relational schema of src/unnamed/part_000.

    Modelling decisions.
    - JavaScript numbers and the DECIMAL(12,2) columns are exact rationals
      ([Qc]); binary rounding and the store's rounding to two fractional
      digits are outside the model.
    - A JSON field that the handlers read as a number is an [option Qc]
      ([None] for a missing, [null] or [undefined] field), an id is an
      [option Z], a text field an [option string].
    - One request runs on one connection.  A connection is a [session]: the
      committed [store], the working copy of an open transaction, and the
      number of calls made to the driver so far.  Every driver call may fail
      for reasons outside the program; which calls fail is given by the
      oracle [faults] of the environment.
    - Only the POST branches of the ledger routes (and the reports route)
      are embedded; the GET listings do not touch the ledger.
    - [AuthApi] (src/pages/api/auth.js, l.11-53), [SettingsApi]
      (src/unnamed/part_003, l.8-45) and [LibDb] (src/lib/db.js) embed the
      login route, the settings route and the connection pool; [Listing]
      embeds the GET branches of the ledger routes. *)

From Stdlib Require Import QArith Qcanon ZArith Ascii String.
From stdpp Require Import base option list gmap strings numbers sorting.

Local Open Scope Z_scope.

(** ** JavaScript values read by the handlers *)

Module Js.

(** [x || 0] on a numeric field: a missing field and the number 0 are both
    falsy. *)
Definition truthy_num (x : option Qc) : bool :=
  match x with
  | Some q => negb (bool_decide (q = 0%Qc))
  | None => false
  end.

Definition or0 (x : option Qc) : Qc :=
  match x with
  | Some q => if truthy_num x then q else 0%Qc
  | None => 0%Qc
  end.

Definition truthy_id (x : option Z) : bool :=
  match x with
  | Some i => negb (i =? 0)
  | None => false
  end.

Definition truthy_str (x : option string) : bool :=
  match x with
  | Some s => negb (bool_decide (s = EmptyString))
  | None => false
  end.

(** [x || null] on a text field. *)
Definition or_null (x : option string) : option string :=
  if truthy_str x then x else None.

(** [String(z)] for an integer: its decimal digits, the least significant
    one first into the accumulator. *)
Definition digit (d : Z) : ascii := ascii_of_nat (Z.to_nat (48 + d)).

Fixpoint digits (fuel : nat) (n : Z) (acc : string) : string :=
  match fuel with
  | O => acc
  | S fuel' =>
      let acc' := String (digit (n mod 10)) acc in
      if n / 10 =? 0 then acc' else digits fuel' (n / 10) acc'
  end.

Definition String_int (z : Z) : string :=
  if z <? 0 then String "-"%char (digits (S (Z.abs_nat z)) (- z) EmptyString)
  else digits (S (Z.to_nat z)) z EmptyString.

Fixpoint replicate_char (n : nat) (c : ascii) : string :=
  match n with
  | O => EmptyString
  | S n' => String c (replicate_char n' c)
  end.

(** [s.padStart(len, c)] with a one-character filler. *)
Definition padStart (len : nat) (c : ascii) (s : string) : string :=
  (replicate_char (len - String.length s) c ++ s)%string.

End Js.

(** ** The relational schema (src/unnamed/part_000) *)

Record date := Date { year : Z; month : Z; day : Z }.

Definition date_leb (a b : date) : bool :=
  (year a <? year b)
  || ((year a =? year b)
      && ((month a <? month b)
          || ((month a =? month b) && (day a <=? day b)))).

(** [d BETWEEN lo AND hi] *)
Definition between (lo hi d : date) : bool := date_leb lo d && date_leb d hi.

Record inventory_row := InventoryRow {
  item_name : string;
  category : string;
  hsn_sac : option string;
  quantity : Qc;
  rate : Qc;
  specs : option string
}.

Record purchase_row := PurchaseRow {
  p_id : Z;
  p_item_id : option Z;
  p_quantity : Qc;
  p_rate : Qc;
  p_date : date;
  p_vendor_name : option string;
  p_invoice_number : option string;
  p_cgst : Qc;
  p_sgst : Qc;
  p_igst : Qc
}.

(** One element of the [items] array of a sale request; the array is stored
    as it is in the [items] JSON column of the sale. *)
Record sale_item := SaleItem {
  i_item_id : option Z;
  i_description : option string;
  i_hsn_sac : option string;
  i_quantity : option Qc;
  i_rate : option Qc
}.

Record sale_row := SaleRow {
  s_id : Z;
  s_invoice_number : string;
  s_customer_name : option string;
  s_customer_address : option string;
  s_customer_gstin : option string;
  s_place_of_supply : option string;
  s_vehicle_no : option string;
  s_items : list sale_item;
  s_taxable_total : Qc;
  s_cgst : Qc;
  s_sgst : Qc;
  s_igst : Qc;
  s_grand_total : Qc;
  s_date : date
}.

Record expense_row := ExpenseRow {
  e_id : Z;
  e_description : string;
  e_amount : Qc;
  e_category : option string;
  e_date : date
}.

(** The four ledger tables.  [inventory] is keyed by the primary key [id]. *)
Record db := Db {
  inventory : gmap Z inventory_row;
  purchases : list purchase_row;
  sales : list sale_row;
  expenses : list expense_row
}.

Definition empty_db : db := Db ∅ [] [] [].

(** AUTO_INCREMENT: one more than the largest key in use. *)
Definition next_item_id (inv : gmap Z inventory_row) : Z :=
  1 + map_fold (λ k _ acc, Z.max k acc) 0 inv.

Definition next_row_id {A} (table : list A) : Z := 1 + Z.of_nat (length table).

(** ** The environment of one request *)

Record env := Env {
  faults : nat → bool;      (* which driver calls of this request fail *)
  today : date;             (* [new Date()] as a calendar day *)
  this_month : date * date  (* first and last day of the current month,
                               as the reports route formats them *)
}.

Definition no_faults : nat → bool := λ _, false.

(** ** Connections and transactions (mysql2/promise) *)

Inductive error : Type :=
| PersistenceFailure
| ForeignKeyViolation.

Inductive result (A : Type) : Type :=
| Ok (a : A)
| Throw (e : error).
Arguments Ok {A} a.
Arguments Throw {A} e.

Record session := Session {
  store : db;           (* committed, visible to every connection *)
  txn : option db;      (* working copy of the open transaction *)
  issued : nat          (* driver calls made so far *)
}.

Definition M (A : Type) : Type := session → result A * session.

Definition ret {A} (a : A) : M A := λ s, (Ok a, s).

Definition bind {A B} (m : M A) (k : A → M B) : M B :=
  λ s, match m s with
       | (Ok a, s') => k a s'
       | (Throw e, s') => (Throw e, s')
       end.

Definition throw {A} (e : error) : M A := λ s, (Throw e, s).

(** [try { m } catch (error) { h }] *)
Definition try_catch {A} (m : M A) (h : error → M A) : M A :=
  λ s, match m s with
       | (Ok a, s') => (Ok a, s')
       | (Throw e, s') => h e s'
       end.

(** [try { m } finally { f }]: [f] runs whatever the outcome of [m]. *)
Definition finally {A} (m : M A) (f : M unit) : M A :=
  λ s, match m s with
       | (r, s') =>
           match f s' with
           | (Ok _, s'') => (r, s'')
           | (Throw e, s'') => (Throw e, s'')
           end
       end.

Declare Scope tx_scope.
Delimit Scope tx_scope with tx.
Notation "x <- m ;; k" := (bind m (λ x, k))
  (at level 100, m at next level, right associativity) : tx_scope.
Notation "m ;;; k" := (bind m (λ _, k))
  (at level 100, right associativity) : tx_scope.
Local Open Scope tx_scope.

(** The database a statement on this connection reads and writes. *)
Definition working (s : session) : db := default (store s) (txn s).

Definition write (f : db → db) : M unit :=
  λ s, match txn s with
       | Some w => (Ok tt, Session (store s) (Some (f w)) (issued s))
       | None => (Ok tt, Session (f (store s)) None (issued s))
       end.

Definition read {A} (f : db → A) : M A := λ s, (Ok (f (working s)), s).

Section Driver.

Variable E : env.

(** One call to the driver: it fails when the oracle says so. *)
Definition call : M unit :=
  λ s, let s' := Session (store s) (txn s) (S (issued s)) in
       if faults E (issued s) then (Throw PersistenceFailure, s')
       else (Ok tt, s').

Definition getConnection : M unit := call.

(** [conn.release()]: the connection goes back to the pool; nothing is
    read or written. *)
Definition release : M unit := ret tt.

Definition beginTransaction : M unit :=
  call ;;; λ s, (Ok tt, Session (store s) (Some (store s)) (issued s)).

Definition commit : M unit :=
  call ;;; λ s, (Ok tt, Session (working s) None (issued s)).

Definition rollback : M unit :=
  call ;;; λ s, (Ok tt, Session (store s) None (issued s)).

(** [conn.query(sql, params)] for a statement that reads. *)
Definition select {A} (f : db → A) : M A := call ;;; read f.

(** [conn.query(sql, params)] for a statement that writes. *)
Definition execute (f : db → db) : M unit := call ;;; write f.

End Driver.

(** [for (const x of l) { body x }] *)
Fixpoint for_of {A} (l : list A) (body : A → M unit) : M unit :=
  match l with
  | [] => ret tt
  | x :: l' => body x ;;; for_of l' body
  end.

(** ** Responses *)

Record summary := Summary {
  sum_sales : Qc;
  sum_purchases : Qc;
  sum_expenses : Qc;
  netProfit : Qc
}.

Inductive body : Type :=
| BError (msg : string)
| BId (id : Z)
| BInvoice (invoice_number : string) (grand_total : Qc)
| BReport (s : summary)
          (detail : option (list sale_row * list purchase_row * list expense_row)).

Record response := Response { status : Z; json : body }.

(** Runs a handler on a fresh connection against the committed database and
    returns the response with the database as other connections see it. *)
Definition serve (m : M response) (d : db) : response * db :=
  match m (Session d None 0) with
  | (Ok r, s) => (r, store s)
  | (Throw _, s) => (Response 500 (BError "Internal Server Error"), store s)
  end.

(** ** SQL statements issued by the routes *)

Definition sum_Qc (l : list Qc) : Qc := foldr Qcplus 0%Qc l.

Module Sql.

Definition set_inventory (f : gmap Z inventory_row → gmap Z inventory_row)
    (d : db) : db :=
  Db (f (inventory d)) (purchases d) (sales d) (expenses d).

Definition add_quantity (q : Qc) (r : inventory_row) : inventory_row :=
  InventoryRow (item_name r) (category r) (hsn_sac r)
               (quantity r + q)%Qc (rate r) (specs r).

Definition sub_quantity (q : Qc) (r : inventory_row) : inventory_row :=
  InventoryRow (item_name r) (category r) (hsn_sac r)
               (quantity r - q)%Qc (rate r) (specs r).

(** FOREIGN KEY (item_id) REFERENCES inventory(id): a non-NULL reference
    must name an existing row. *)
Definition references_ok (inv : gmap Z inventory_row) (ref : option Z) : bool :=
  match ref with
  | Some i => bool_decide (is_Some (inv !! i))
  | None => true
  end.

Section Statements.

Variable E : env.

(** INSERT INTO purchases (...) VALUES (...); answers the insertId. *)
Definition insert_purchase (row : Z → purchase_row) : M Z :=
  call E ;;;
  w <- read (λ d, d) ;;
  let r := row (next_row_id (purchases w)) in
  if references_ok (inventory w) (p_item_id r)
  then write (λ d, Db (inventory d) (purchases d ++ [r]) (sales d) (expenses d)) ;;;
       ret (p_id r)
  else throw ForeignKeyViolation.

(** UPDATE inventory SET quantity = quantity + ? WHERE id = ? *)
Definition increase_quantity (q : Qc) (id : Z) : M unit :=
  execute E (set_inventory (alter (add_quantity q) id)).

(** UPDATE inventory SET quantity = quantity - ? WHERE id = ? *)
Definition decrease_quantity (q : Qc) (id : Z) : M unit :=
  execute E (set_inventory (alter (sub_quantity q) id)).

(** SELECT COUNT of all rows AS count FROM sales *)
Definition count_sales : M nat := select E (λ d, length (sales d)).

(** INSERT INTO sales (...) VALUES (...) *)
Definition insert_sale (row : Z → sale_row) : M unit :=
  execute E (λ d, Db (inventory d) (purchases d)
                     (sales d ++ [row (next_row_id (sales d))]) (expenses d)).

(** INSERT INTO inventory (...) VALUES (...); answers the insertId. *)
Definition insert_item (row : inventory_row) : M Z :=
  call E ;;;
  w <- read (λ d, d) ;;
  let id := next_item_id (inventory w) in
  write (set_inventory (insert id row)) ;;;
  ret id.

(** INSERT INTO expenses (...) VALUES (...); answers the insertId. *)
Definition insert_expense (row : Z → expense_row) : M Z :=
  call E ;;;
  w <- read (λ d, d) ;;
  let r := row (next_row_id (expenses w)) in
  write (λ d, Db (inventory d) (purchases d) (sales d) (expenses d ++ [r])) ;;;
  ret (e_id r).

(** The rows of the three ledgers dated within [lo, hi]. *)
Definition sales_between (lo hi : date) (d : db) : list sale_row :=
  filter (λ r, between lo hi (s_date r) = true) (sales d).

Definition purchases_between (lo hi : date) (d : db) : list purchase_row :=
  filter (λ r, between lo hi (p_date r) = true) (purchases d).

Definition expenses_between (lo hi : date) (d : db) : list expense_row :=
  filter (λ r, between lo hi (e_date r) = true) (expenses d).

(** SELECT IFNULL(SUM(grand_total),0) FROM sales WHERE date BETWEEN ? AND ? *)
Definition total_sales (lo hi : date) : M Qc :=
  select E (λ d, sum_Qc (s_grand_total <$> sales_between lo hi d)).

(** SELECT IFNULL(SUM(quantity*rate),0) FROM purchases WHERE date BETWEEN ? AND ? *)
Definition total_purchases (lo hi : date) : M Qc :=
  select E (λ d, sum_Qc ((λ r, p_quantity r * p_rate r)%Qc <$> purchases_between lo hi d)).

(** SELECT IFNULL(SUM(amount),0) FROM expenses WHERE date BETWEEN ? AND ? *)
Definition total_expenses (lo hi : date) : M Qc :=
  select E (λ d, sum_Qc (e_amount <$> expenses_between lo hi d)).

End Statements.

End Sql.

(** ** The purchase route: POST branch of [handler] *)

Module PurchaseApi.

Record request := Request {
  item_id : option Z;
  quantity : option Qc;
  rate : option Qc;
  date : option date;
  vendor_name : option string;
  invoice_number : option string;
  cgst : option Qc;
  sgst : option Qc;
  igst : option Qc
}.

(** [!item_id || !quantity || !rate] *)
Definition missing_fields (b : request) : bool :=
  negb (Js.truthy_id (item_id b))
  || negb (Js.truthy_num (quantity b))
  || negb (Js.truthy_num (rate b)).

Definition failed : response :=
  Response 500 (BError "Failed to record purchase").

Definition handler_post (E : env) (b : request) : M response :=
  if missing_fields b then
    ret (Response 400 (BError "Missing required fields"))
  else
    (* past the check the three fields are present and not zero: [default]
       and [Js.or0] only unwrap them *)
    let id := default 0 (item_id b) in
    let q := Js.or0 (quantity b) in
    try_catch
      (getConnection E ;;;
       finally
         (try_catch
            (beginTransaction E ;;;
             insertId <- Sql.insert_purchase E (λ pid,
               PurchaseRow pid (item_id b) q (Js.or0 (rate b))
                           (default (today E) (date b))
                           (Js.or_null (vendor_name b))
                           (Js.or_null (invoice_number b))
                           (Js.or0 (cgst b)) (Js.or0 (sgst b)) (Js.or0 (igst b))) ;;
             Sql.increase_quantity E q id ;;;
             commit E ;;;
             ret (Response 201 (BId insertId)))
            (λ _, rollback E ;;; ret failed))
         release)
      (λ _, ret failed).

Definition post (E : env) (b : request) (d : db) : response * db :=
  serve (handler_post E b) d.

End PurchaseApi.

(** ** The sales route: POST branch of [handler] *)

Module SalesApi.

Record taxes := Taxes {
  cgst : option Qc;
  sgst : option Qc;
  igst : option Qc
}.

Record request := Request {
  customer_name : option string;
  customer_address : option string;
  customer_gstin : option string;
  place_of_supply : option string;
  vehicle_no : option string;
  items : option (list sale_item);   (* [None]: missing or not an array *)
  taxes_of : option taxes
}.

(** [taxes?.cgst || 0] and its two siblings *)
Definition tax (f : taxes → option Qc) (t : option taxes) : Qc :=
  Js.or0 (t ≫= f).

(** [items.forEach(item => taxableTotal += (item.rate||0) * (item.quantity||0))] *)
Definition taxableTotal (l : list sale_item) : Qc :=
  fold_left (λ acc item, acc + Js.or0 (i_rate item) * Js.or0 (i_quantity item))%Qc
            l 0%Qc.

Definition grandTotal (l : list sale_item) (t : option taxes) : Qc :=
  (taxableTotal l + tax cgst t + tax sgst t + tax igst t)%Qc.

(** [`INV-${year}-${String(nextNumber).padStart(3, '0')}`] *)
Definition invoiceNumber (y : Z) (nextNumber : nat) : string :=
  ("INV-" ++ Js.String_int y ++ "-"
     ++ Js.padStart 3 "0"%char (Js.String_int (Z.of_nat nextNumber)))%string.

(** [q > 0 && item.item_id]: the line decreases the stock. *)
Definition deducts (item : sale_item) : bool :=
  bool_decide (0 < Js.or0 (i_quantity item))%Qc && Js.truthy_id (i_item_id item).

Definition failed : response :=
  Response 500 (BError "Failed to create invoice").

Definition handler_post (E : env) (b : request) : M response :=
  match items b with
  | None | Some [] => ret (Response 400 (BError "Items are required"))
  | Some l =>
      try_catch
        (let total := taxableTotal l in
         let c := tax cgst (taxes_of b) in
         let s := tax sgst (taxes_of b) in
         let i := tax igst (taxes_of b) in
         let grand := (total + c + s + i)%Qc in
         getConnection E ;;;
         finally (try_catch
           (beginTransaction E ;;;
            count <- Sql.count_sales E ;;
            let nextNumber := (count + 1)%nat in
            let number := invoiceNumber (year (today E)) nextNumber in
            Sql.insert_sale E (λ sid,
              SaleRow sid number
                      (Js.or_null (customer_name b))
                      (Js.or_null (customer_address b))
                      (Js.or_null (customer_gstin b))
                      (Js.or_null (place_of_supply b))
                      (Js.or_null (vehicle_no b))
                      l total c s i grand (today E)) ;;;
            for_of l (λ item,
              let q := Js.or0 (i_quantity item) in
              if deducts item
              then Sql.decrease_quantity E q (default 0 (i_item_id item))
              else ret tt) ;;;
            commit E ;;;
            ret (Response 201 (BInvoice number grand)))
           (λ _, rollback E ;;; ret failed))
           release)
        (λ _, ret failed)
  end.

Definition post (E : env) (b : request) (d : db) : response * db :=
  serve (handler_post E b) d.

End SalesApi.

(** ** The inventory route: POST branch of [handler] *)

Module InventoryApi.

Record request := Request {
  item_name : option string;
  category : option string;
  hsn_sac : option string;
  quantity : option Qc;
  rate : option Qc;
  specs : option string     (* the specs object as JSON text *)
}.

(** [!item_name || !category || !quantity || !rate] *)
Definition missing_fields (b : request) : bool :=
  negb (Js.truthy_str (item_name b))
  || negb (Js.truthy_str (category b))
  || negb (Js.truthy_num (quantity b))
  || negb (Js.truthy_num (rate b)).

Definition handler_post (E : env) (b : request) : M response :=
  if missing_fields b then
    ret (Response 400 (BError "Missing required fields"))
  else
    try_catch
      (let jsonSpecs := specs b in
       insertId <- Sql.insert_item E
         (InventoryRow (default EmptyString (item_name b))
                       (default EmptyString (category b))
                       (Js.or_null (hsn_sac b))
                       (Js.or0 (quantity b)) (Js.or0 (rate b)) jsonSpecs) ;;
       ret (Response 201 (BId insertId)))
      (λ _, ret (Response 500 (BError "Failed to create inventory item"))).

Definition post (E : env) (b : request) (d : db) : response * db :=
  serve (handler_post E b) d.

End InventoryApi.

(** ** The expenses route: POST branch of [handler] *)

Module ExpensesApi.

Record request := Request {
  description : option string;
  amount : option Qc;
  category : option string;
  date : option date
}.

(** [!description || !amount] *)
Definition missing_fields (b : request) : bool :=
  negb (Js.truthy_str (description b)) || negb (Js.truthy_num (amount b)).

Definition handler_post (E : env) (b : request) : M response :=
  if missing_fields b then
    ret (Response 400 (BError "Description and amount are required"))
  else
    try_catch
      (insertId <- Sql.insert_expense E (λ eid,
         ExpenseRow eid (default EmptyString (description b))
                    (Js.or0 (amount b)) (Js.or_null (category b))
                    (default (today E) (date b))) ;;
       ret (Response 201 (BId insertId)))
      (λ _, ret (Response 500 (BError "Failed to record expense"))).

Definition post (E : env) (b : request) (d : db) : response * db :=
  serve (handler_post E b) d.

End ExpensesApi.

(** ** The reports route: [handler] *)

Module ReportsApi.

Record query := Query {
  from : option date;
  to : option date;
  detail : option string
}.

(** [from && to] picks the supplied window, otherwise the current month. *)
Definition window (E : env) (q : query) : date * date :=
  match from q, to q with
  | Some f, Some t => (f, t)
  | _, _ => this_month E
  end.

Definition handler (E : env) (q : query) : M response :=
  let '(fromStr, toStr) := window E q in
  try_catch
    (salesAgg <- Sql.total_sales E fromStr toStr ;;
     purchaseAgg <- Sql.total_purchases E fromStr toStr ;;
     expenseAgg <- Sql.total_expenses E fromStr toStr ;;
     let net := (salesAgg - (purchaseAgg + expenseAgg))%Qc in
     let summary := Summary salesAgg purchaseAgg expenseAgg net in
     if bool_decide (detail q = Some "true"%string) then
       sales <- select E (Sql.sales_between fromStr toStr) ;;
       purchases <- select E (Sql.purchases_between fromStr toStr) ;;
       expenses <- select E (Sql.expenses_between fromStr toStr) ;;
       ret (Response 200 (BReport summary (Some (sales, purchases, expenses))))
     else
       ret (Response 200 (BReport summary None)))
    (λ _, ret (Response 500 (BError "Failed to fetch reports"))).

Definition get (E : env) (q : query) (d : db) : response * db :=
  serve (handler E q) d.

End ReportsApi.

(** ** Sequential use: a trace of requests, one after the other *)

Inductive request : Type :=
| PostItem (b : InventoryApi.request)
| PostPurchase (b : PurchaseApi.request)
| PostSale (b : SalesApi.request)
| PostExpense (b : ExpensesApi.request)
| GetReport (q : ReportsApi.query).

Definition dispatch (E : env) (r : request) (d : db) : response * db :=
  match r with
  | PostItem b => InventoryApi.post E b d
  | PostPurchase b => PurchaseApi.post E b d
  | PostSale b => SalesApi.post E b d
  | PostExpense b => ExpensesApi.post E b d
  | GetReport q => ReportsApi.get E q d
  end.

(** The database after serving the requests of [t] in order, each in its
    own environment. *)
Definition run (t : list (env * request)) (d : db) : db :=
  fold_left (λ d '(E, r), snd (dispatch E r d)) t d.

(** ** What the claims speak of *)

(** The net effect of the stock updates of a sale on the inventory table. *)
Definition deduct (item : sale_item) (inv : gmap Z inventory_row)
    : gmap Z inventory_row :=
  if SalesApi.deducts item
  then alter (Sql.sub_quantity (Js.or0 (i_quantity item)))
             (default 0 (i_item_id item)) inv
  else inv.

Definition deduct_all (l : list sale_item) (inv : gmap Z inventory_row)
    : gmap Z inventory_row :=
  fold_left (λ inv item, deduct item inv) l inv.

(** The number of UPDATE statements a sale issues. *)
Fixpoint updates (l : list sale_item) : nat :=
  match l with
  | [] => 0
  | item :: l' => (if SalesApi.deducts item then 1 else 0) + updates l'
  end.

(** The number of driver calls of a sale up to and including the commit:
    getConnection, beginTransaction, the count, the insert, the updates,
    the commit. *)
Definition sale_calls (l : list sale_item) : nat := 5 + updates l.

(** The sale record written for request [b] with lines [l] on database [d]. *)
Definition sale_record (E : env) (b : SalesApi.request) (l : list sale_item)
    (d : db) : sale_row :=
  SaleRow (next_row_id (sales d))
          (SalesApi.invoiceNumber (year (today E)) (length (sales d) + 1))
          (Js.or_null (SalesApi.customer_name b))
          (Js.or_null (SalesApi.customer_address b))
          (Js.or_null (SalesApi.customer_gstin b))
          (Js.or_null (SalesApi.place_of_supply b))
          (Js.or_null (SalesApi.vehicle_no b))
          l (SalesApi.taxableTotal l)
          (SalesApi.tax SalesApi.cgst (SalesApi.taxes_of b))
          (SalesApi.tax SalesApi.sgst (SalesApi.taxes_of b))
          (SalesApi.tax SalesApi.igst (SalesApi.taxes_of b))
          (SalesApi.grandTotal l (SalesApi.taxes_of b))
          (today E).

(** The database after a committed sale. *)
Definition sale_committed (E : env) (b : SalesApi.request) (l : list sale_item)
    (d : db) : db :=
  Db (deduct_all l (inventory d)) (purchases d)
     (sales d ++ [sale_record E b l d]) (expenses d).

(** The purchase record written for request [b] on database [d], and the
    database after the committed purchase. *)
Definition purchase_record (E : env) (b : PurchaseApi.request) (d : db)
    : purchase_row :=
  PurchaseRow (next_row_id (purchases d)) (PurchaseApi.item_id b)
              (Js.or0 (PurchaseApi.quantity b)) (Js.or0 (PurchaseApi.rate b))
              (default (today E) (PurchaseApi.date b))
              (Js.or_null (PurchaseApi.vendor_name b))
              (Js.or_null (PurchaseApi.invoice_number b))
              (Js.or0 (PurchaseApi.cgst b)) (Js.or0 (PurchaseApi.sgst b))
              (Js.or0 (PurchaseApi.igst b)).

Definition purchase_committed (E : env) (b : PurchaseApi.request) (d : db) : db :=
  Db (alter (Sql.add_quantity (Js.or0 (PurchaseApi.quantity b)))
            (default 0 (PurchaseApi.item_id b)) (inventory d))
     (purchases d ++ [purchase_record E b d]) (sales d) (expenses d).








(** The stored quantity of item [i]. *)
Definition stock (d : db) (i : Z) : option Qc := quantity <$> inventory d !! i.


(** The line names a row of the inventory table [inv]. *)
Definition known (inv : gmap Z inventory_row) (item : sale_item) : Prop :=
  is_Some (inv !! default 0 (i_item_id item)).



(** The regular expression [INV-\d{4}-\d{3,}], matched against the whole
    string. *)
Definition is_digit (c : ascii) : bool :=
  (48 <=? nat_of_ascii c)%nat && (nat_of_ascii c <=? 57)%nat.

Fixpoint all_digits (s : string) : bool :=
  match s with
  | EmptyString => true
  | String c s' => is_digit c && all_digits s'
  end.

Definition matches_invoice_pattern (s : string) : bool :=
  match s with
  | String "I" (String "N" (String "V" (String "-"
      (String y1 (String y2 (String y3 (String y4 (String "-" seq)))))))) =>
      is_digit y1 && is_digit y2 && is_digit y3 && is_digit y4
      && all_digits seq && (3 <=? String.length seq)%nat
  | _ => false
  end.

(** The integer that a string of decimal digits denotes, read from the left
    onto the accumulator [a]. *)
Fixpoint decimal_value (s : string) (a : Z) : Z :=
  match s with
  | EmptyString => a
  | String c s' => decimal_value s' (10 * a + (Z.of_nat (nat_of_ascii c) - 48))
  end.

(** ** Scenarios of the specification *)

Definition num (z : Z) : Qc := Q2Qc (inject_Z z).

(** An ordinary day on which no driver call fails. *)
Definition calm : env :=
  Env no_faults (Date 2024 6 15) (Date 2024 6 1, Date 2024 6 30).

(** The same day, with the driver call number [k] failing. *)
Definition failing (k : nat) : env :=
  Env (λ n, bool_decide (n = k)) (Date 2024 6 15) (Date 2024 6 1, Date 2024 6 30).

Definition widget : InventoryApi.request :=
  InventoryApi.Request (Some "Widget"%string) (Some "Other"%string) None
                       (Some (num 100)) (Some (num 10)) None.

Definition buy (i : Z) (q r : Z) : PurchaseApi.request :=
  PurchaseApi.Request (Some i) (Some (num q)) (Some (num r))
                      None None None None None None.

Definition line (i : Z) (q r : Z) : sale_item :=
  SaleItem (Some i) None None (Some (num q)) (Some (num r)).

Definition sell (l : list sale_item) (c s i : Z) : SalesApi.request :=
  SalesApi.Request None None None None None (Some l)
                   (Some (SalesApi.Taxes (Some (num c)) (Some (num s)) (Some (num i)))).

Definition spend (a : Z) : ExpensesApi.request :=
  ExpensesApi.Request (Some "Rent"%string) (Some (num a)) None None.

(** Scenario A: the widget is created with quantity 100, then 50 are bought
    at 9.00.  Scenario B: 30 are sold at 10.00 with taxes 5, 5 and 0. *)
Definition db_created : db := snd (InventoryApi.post calm widget empty_db).
Definition db_A : db := snd (PurchaseApi.post calm (buy 1 50 9) db_created).
Definition db_B : db := snd (SalesApi.post calm (sell [line 1 30 10] 5 5 0) db_A).
Definition db_D : db := snd (ExpensesApi.post calm (spend 50) db_B).


(** ** Beyond the ledger claims: more definitions *)

(** The columns of an inventory row that identify the item: all but the
    quantity. *)
Definition identity (r : inventory_row)
    : string * string * option string * Qc * option string :=
  (item_name r, category r, hsn_sac r, rate r, specs r).

(** The summary of a report response, if it is one. *)
Definition summary_of (r : response) : option summary :=
  match json r with
  | BReport s _ => Some s
  | _ => None
  end.

(** The detail lists of a report response, if it carries them. *)
Definition detail_of (r : response)
    : option (list sale_row * list purchase_row * list expense_row) :=
  match json r with
  | BReport _ detail => detail
  | _ => None
  end.

(** The three sums of the reports route over the window [lo, hi]. *)
Definition window_summary (lo hi : date) (d : db) : summary :=
  let s := sum_Qc (s_grand_total <$> Sql.sales_between lo hi d) in
  let p := sum_Qc ((λ r, p_quantity r * p_rate r)%Qc <$> Sql.purchases_between lo hi d) in
  let x := sum_Qc (e_amount <$> Sql.expenses_between lo hi d) in
  Summary s p x (s - (p + x))%Qc.


(** ** Routes that use a pooled or a one-off connection without a transaction

    [pool.query] and [connection.execute] run one statement on a store of
    type [T]; each statement is committed on its own.  The state is the
    store and the number of driver calls made so far. *)

Module Pool.

Section Store.

Context {T : Type}.

Definition P (A : Type) : Type := T * nat → result A * (T * nat).

Definition ret {A} (a : A) : P A := λ s, (Ok a, s).

Definition bind {A B} (m : P A) (k : A → P B) : P B :=
  λ s, match m s with
       | (Ok a, s') => k a s'
       | (Throw e, s') => (Throw e, s')
       end.

(** [try { m } catch (err) { h }] *)
Definition try_catch {A} (m : P A) (h : error → P A) : P A :=
  λ s, match m s with
       | (Ok a, s') => (Ok a, s')
       | (Throw e, s') => h e s'
       end.

(** [try { m } finally { f }] *)
Definition finally {A} (m : P A) (f : P unit) : P A :=
  λ s, match m s with
       | (r, s') =>
           match f s' with
           | (Ok _, s'') => (r, s'')
           | (Throw e, s'') => (Throw e, s'')
           end
       end.

(** One statement: it fails when the oracle says so, else it reads and
    writes the store. *)
Definition query (E : env) {A} (f : T → A * T) : P A :=
  λ s, let n := snd s in
       if faults E n then (Throw PersistenceFailure, (fst s, S n))
       else (Ok (fst (f (fst s))), (snd (f (fst s)), S n)).

(** Runs a handler from the first driver call; [unhandled] is the answer of
    the framework to an exception that escapes the handler. *)
Definition serve {R} (m : P R) (unhandled : R) (t : T) : R * T :=
  match m (t, O) with
  | (Ok r, s) => (r, fst s)
  | (Throw _, s) => (unhandled, fst s)
  end.

End Store.

End Pool.

Declare Scope pool_scope.
Delimit Scope pool_scope with pool.
Notation "x <- m ;; k" := (Pool.bind m (λ x, k))
  (at level 100, m at next level, right associativity) : pool_scope.
Notation "m ;;; k" := (Pool.bind m (λ _, k))
  (at level 100, right associativity) : pool_scope.

(** Environment variables of the process: unset, or a string. *)
Record vars := Vars {
  DB_HOST : option string;
  DB_PORT : option string;
  DB_USER : option string;
  DB_PASSWORD : option string;
  DB_NAME : option string;
  DEFAULT_USER : option string;
  DEFAULT_PASSWORD : option string
}.

(** [x || fallback] on a string. *)
Definition or_else (x : option string) (fallback : string) : string :=
  if Js.truthy_str x then default fallback x else fallback.

(** ** The login route: [handler] of src/pages/api/auth.js, l.11-53 *)

Module AuthApi.

Record user_row := UserRow {
  u_id : Z;
  u_userId : option string;
  u_password : option string
}.

Record credentials := Credentials {
  userId : option string;
  password : option string
}.

Inductive body : Type :=
| Error (msg : string)
| User (userId : string).

Record response := Response {
  status : Z;
  allow : option (list string);   (* the Allow header, when set *)
  json : body
}.

Section Collation.

(** How the database compares a column of type VARCHAR with a parameter:
    equality under the collation of the column. *)
Variable sql_eq : string → string → bool.

(** SELECT id, userId FROM users WHERE userId = ? AND password = ?
    (a NULL column matches nothing) *)
Definition row_matches (u p : string) (r : user_row) : bool :=
  match u_userId r, u_password r with
  | Some u', Some p' => sql_eq u' u && sql_eq p' p
  | _, _ => false
  end.

Definition select_user (u p : string) (users : list user_row) : list user_row :=
  filter (λ r, row_matches u p r = true) users.

Definition handler (E : env) (V : vars) (method : string) (b : credentials)
    : Pool.P response :=
  (if negb (String.eqb method "POST") then
     Pool.ret (Response 405 (Some ["POST"%string])
                 (Error ("Method " ++ method ++ " Not Allowed")))
   else if negb (Js.truthy_str (userId b)) || negb (Js.truthy_str (password b)) then
     Pool.ret (Response 400 None (Error "Missing credentials"))
   else
     let u := default EmptyString (userId b) in
     let p := default EmptyString (password b) in
     Pool.try_catch
       (found <-
          (if Js.truthy_str (DB_HOST V) && Js.truthy_str (DB_USER V)
              && Js.truthy_str (DB_NAME V)
           then
             (* mysql.createConnection *)
             Pool.query E (λ users, (tt, users)) ;;;
             Pool.finally
               (rows <- Pool.query E (λ users, (select_user u p users, users)) ;;
                Pool.ret (bool_decide (0 < length rows)%nat))
               (* connection.end *)
               (Pool.query E (λ users, (tt, users)))
           else Pool.ret false) ;;
        let authenticated :=
          found
          || (negb found
              && String.eqb u (or_else (DEFAULT_USER V) "123456")
              && String.eqb p (or_else (DEFAULT_PASSWORD V) "123456")) in
        if authenticated then Pool.ret (Response 200 None (User u))
        else Pool.ret (Response 401 None (Error "Invalid credentials")))
       (λ _, Pool.ret (Response 500 None (Error "Internal Server Error"))))%pool.

Definition login (E : env) (V : vars) (method : string) (b : credentials)
    (users : list user_row) : response :=
  fst (Pool.serve (handler E V method b)
         (Response 500 None (Error "Internal Server Error")) users).

End Collation.

End AuthApi.

(** ** The settings route: [handler] of src/unnamed/part_003, l.8-45 *)

Module SettingsApi.

(** The columns of company_settings besides the key [id]; the body of a
    POST has the same fields. *)
Record settings_row := Row {
  company_name : option string;
  address : option string;
  city : option string;
  state : option string;
  zip : option string;
  gstin : option string;
  contact : option string;
  bank_name : option string;
  bank_account_name : option string;
  bank_account_number : option string;
  ifsc : option string;
  branch : option string;
  default_user : option string;
  default_password : option string
}.

(** A value of a JS object built from a row. *)
Inductive value : Type :=
| Num (z : Z)
| Str (s : string)
| Null.

Definition truthy (v : value) : bool :=
  match v with
  | Num z => negb (z =? 0)
  | Str s => negb (bool_decide (s = EmptyString))
  | Null => false
  end.

Definition column (x : option string) : value :=
  match x with
  | Some s => Str s
  | None => Null
  end.

(** A row of [SELECT * FROM company_settings] as the driver hands it over:
    an object with one property per column. *)
Definition object_of (id : Z) (r : settings_row) : gmap string value :=
  list_to_map
    [("id"%string, Num id);
     ("company_name"%string, column (company_name r));
     ("address"%string, column (address r));
     ("city"%string, column (city r));
     ("state"%string, column (state r));
     ("zip"%string, column (zip r));
     ("gstin"%string, column (gstin r));
     ("contact"%string, column (contact r));
     ("bank_name"%string, column (bank_name r));
     ("bank_account_name"%string, column (bank_account_name r));
     ("bank_account_number"%string, column (bank_account_number r));
     ("ifsc"%string, column (ifsc r));
     ("branch"%string, column (branch r));
     ("default_user"%string, column (default_user r));
     ("default_password"%string, column (default_password r))].

(** The parameters of the UPDATE and of the INSERT: every field [x || null]. *)
Definition parameters (b : settings_row) : settings_row :=
  Row (Js.or_null (company_name b)) (Js.or_null (address b))
      (Js.or_null (city b)) (Js.or_null (state b)) (Js.or_null (zip b))
      (Js.or_null (gstin b)) (Js.or_null (contact b))
      (Js.or_null (bank_name b)) (Js.or_null (bank_account_name b))
      (Js.or_null (bank_account_number b)) (Js.or_null (ifsc b))
      (Js.or_null (branch b)) (Js.or_null (default_user b))
      (Js.or_null (default_password b)).

Inductive body : Type :=
| Error (msg : string)
| Message (msg : string)
| Settings (settings : gmap string value).

Record response := Response {
  status : Z;
  allow : option (list string);
  json : body
}.

(** The table, keyed by [id]. *)
Definition handler (E : env) (method : string) (b : settings_row)
    : @Pool.P (gmap Z settings_row) response :=
  (if String.eqb method "GET" then
     Pool.try_catch
       ((* SELECT * FROM company_settings WHERE id = 1 *)
        rows <- Pool.query E (λ t, (match t !! 1 with
                                    | Some r => [object_of 1 r]
                                    | None => []
                                    end, t)) ;;
        let settings := default ∅ (head rows) in
        let settings :=
          if truthy (default Null (settings !! "password"%string))
          then delete "password"%string settings else settings in
        Pool.ret (Response 200 None (Settings settings)))
       (λ _, Pool.ret (Response 500 None (Error "Failed to fetch settings")))
   else if String.eqb method "POST" then
     Pool.try_catch
       ((* SELECT id FROM company_settings WHERE id = 1 *)
        rows <- Pool.query E (λ t, (match t !! 1 with
                                    | Some _ => [1]
                                    | None => []
                                    end, t)) ;;
        (if bool_decide (0 < length rows)%nat then
           (* UPDATE company_settings SET ... WHERE id = 1 *)
           Pool.query E (λ t, (tt, alter (λ _, parameters b) 1 t))
         else
           (* INSERT INTO company_settings (id, ...) VALUES (1, ...) *)
           Pool.query E (λ t, (tt, <[1 := parameters b]> t))) ;;;
        Pool.ret (Response 200 None (Message "Settings updated")))
       (λ _, Pool.ret (Response 500 None (Error "Failed to update settings")))
   else
     Pool.ret (Response 405 (Some ["GET"%string; "POST"%string])
                 (Error ("Method " ++ method ++ " Not Allowed"))))%pool.

Definition serve (E : env) (method : string) (b : settings_row)
    (t : gmap Z settings_row) : response * gmap Z settings_row :=
  Pool.serve (handler E method b)
    (Response 500 None (Error "Internal Server Error")) t.

Definition blank : settings_row :=
  Row None None None None None None None None None None None None None None.

End SettingsApi.

(** ** The connection pool: [getPool] of src/lib/db.js, l.11-36 *)

Module LibDb.

Record pool := MkPool {
  host : string;
  port : option Z;           (* [None] is NaN *)
  user : string;
  password : string;
  database : string;
  waitForConnections : bool;
  connectionLimit : Z;
  queueLimit : Z
}.

Section ParseInt.

(** [parseInt] of the language, on the text of DB_PORT. *)
Variable parseInt : string → option Z.


End ParseInt.

End LibDb.

(** The database of the login route is configured. *)
Definition configured (V : vars) : bool :=
  Js.truthy_str (DB_HOST V) && Js.truthy_str (DB_USER V)
  && Js.truthy_str (DB_NAME V).

(** The credentials are the default ones of the environment. *)
Definition default_credentials (V : vars) (u p : string) : Prop :=
  u = or_else (DEFAULT_USER V) "123456"
  ∧ p = or_else (DEFAULT_PASSWORD V) "123456".

(** No variable set; the database variables set. *)
Definition bare : vars := Vars None None None None None None None.

Definition with_db : vars :=
  Vars (Some "db.example"%string) None (Some "app"%string) None
       (Some "vsol_mini"%string) None None.

(** A users table in which the default user has another password. *)
Definition changed_users : list AuthApi.user_row :=
  [AuthApi.UserRow 1 (Some "123456"%string) (Some "s3cret"%string)].

(** Settings of a company that sets a login and leaves the bank empty. *)
Definition acme : SettingsApi.settings_row :=
  SettingsApi.Row (Some "Acme"%string) None (Some "Pune"%string) None None None
                  None (Some ""%string) None None None None
                  (Some "admin"%string) (Some "hunter2"%string).

(** A table whose row 1 has a bank name, and which has a stray row 7. *)
Definition old_settings : gmap Z SettingsApi.settings_row :=
  {[ 1 := SettingsApi.Row (Some "Old"%string) None None None None None None
                          (Some "First Bank"%string) None None None None None None;
     7 := SettingsApi.blank ]}.

(** ** The GET branches of the ledger routes

    [handler] of the purchase route (src/pages/api/auth.js, l.63-70), of the
    sales route (src/unnamed/part_002, l.129-136), of the expenses route
    (src/pages/api/expenses.js, l.8-15) and of the inventory route
    (src/unnamed/part_004, l.10-19). *)

Module Listing.

Inductive listing (A : Type) : Type :=
| Rows (rows : list A)
| Failed (msg : string).
Arguments Rows {A} rows.
Arguments Failed {A} msg.

Record reply (A : Type) := Reply { status : Z; json : listing A }.
Arguments Reply {A} status json.
Arguments status {A} r.
Arguments json {A} r.

(** [x] is dated no earlier than [y]. *)
Definition newer_first {A} (date_of : A → date) (x y : A) : Prop :=
  date_leb (date_of y) (date_of x) = true.

#[global] Instance newer_first_dec {A} (date_of : A → date) :
  RelDecision (newer_first date_of).
Proof. intros x y. unfold newer_first. apply _. Defined.

(** ORDER BY date DESC.  The order among rows of one date is the choice of
    the store; this is the one a merge sort makes. *)
Definition order_by_date_desc {A} (date_of : A → date) (l : list A) : list A :=
  merge_sort (newer_first date_of) l.

Definition run {R} (m : M R) (unhandled : R) (d : db) : R * db :=
  match m (Session d None 0) with
  | (Ok r, s) => (r, store s)
  | (Throw _, s) => (unhandled, store s)
  end.

Section Routes.

Variable E : env.

(** SELECT * FROM purchases ORDER BY date DESC *)
Definition purchases_get : M (reply purchase_row) :=
  try_catch
    (rows <- select E (λ d, order_by_date_desc p_date (purchases d)) ;;
     ret (Reply 200 (Rows rows)))
    (λ _, ret (Reply 500 (Failed "Failed to fetch purchases"))).

(** SELECT * FROM sales ORDER BY date DESC *)
Definition sales_get : M (reply sale_row) :=
  try_catch
    (rows <- select E (λ d, order_by_date_desc s_date (sales d)) ;;
     ret (Reply 200 (Rows rows)))
    (λ _, ret (Reply 500 (Failed "Failed to fetch sales"))).

(** SELECT * FROM expenses ORDER BY date DESC *)
Definition expenses_get : M (reply expense_row) :=
  try_catch
    (rows <- select E (λ d, order_by_date_desc e_date (expenses d)) ;;
     ret (Reply 200 (Rows rows)))
    (λ _, ret (Reply 500 (Failed "Failed to fetch expenses"))).

(** The inventory listing parses the specs text of every row.  [parse] is
    JSON.parse ([None] when it throws) and [empty] the object {}. *)
Context {Spec : Type}.
Variable parse : string → option Spec.
Variable empty : Spec.

(** [{ ...row, specs: row.specs ? JSON.parse(row.specs) : {} }] *)
Definition view (row : Z * inventory_row) : option (Z * inventory_row * Spec) :=
  if Js.truthy_str (specs (snd row))
  then (λ o, (fst row, snd row, o)) <$> parse (default EmptyString (specs (snd row)))
  else Some (fst row, snd row, empty).

(** SELECT * FROM inventory; an exception of JSON.parse lands in the catch
    clause like a failure of the query. *)
Definition inventory_get : M (reply (Z * inventory_row * Spec)) :=
  try_catch
    (rows <- select E (λ d, map_to_list (inventory d)) ;;
     match mapM view rows with
     | Some items => ret (Reply 200 (Rows items))
     | None => ret (Reply 500 (Failed "Failed to fetch inventory"))
     end)
    (λ _, ret (Reply 500 (Failed "Failed to fetch inventory"))).

End Routes.

End Listing.

(** * Properties *)

(** ** Numbers *)


Lemma truthy_num_spec (x : option Qc) :
  Js.truthy_num x = false ↔ x = None ∨ x = Some 0%Qc.
Proof.
  destruct x as [q|]; simpl.
  - case_bool_decide as Hq; simpl; split.
    + intros _. right. congruence.
    + reflexivity.
    + discriminate.
    + intros [?|?]; congruence.
  - split; auto.
Qed.

Lemma truthy_id_spec (x : option Z) :
  Js.truthy_id x = false ↔ x = None ∨ x = Some 0.
Proof.
  destruct x as [i|]; simpl.
  - destruct (Z.eqb_spec i 0) as [Hi|Hi]; simpl; split.
    + intros _. right. congruence.
    + reflexivity.
    + discriminate.
    + intros [?|?]; congruence.
  - split; auto.
Qed.




(** ** The driver, transactions and the outcomes of the routes *)

Lemma deduct_yes (item : sale_item) (inv : gmap Z inventory_row) :
  SalesApi.deducts item = true →
  deduct item inv
  = alter (Sql.sub_quantity (Js.or0 (i_quantity item)))
          (default 0 (i_item_id item)) inv.
Proof. intros H. unfold deduct. rewrite H. reflexivity. Qed.

Lemma deduct_no (item : sale_item) (inv : gmap Z inventory_row) :
  SalesApi.deducts item = false → deduct item inv = inv.
Proof. intros H. unfold deduct. rewrite H. reflexivity. Qed.

Section DriverFacts.

Variable E : env.

Lemma call_ok (s : session) :
  faults E (issued s) = false →
  call E s = (Ok tt, Session (store s) (txn s) (S (issued s))).
Proof. intros H. unfold call. rewrite H. reflexivity. Qed.

Lemma call_fail (s : session) :
  faults E (issued s) = true →
  call E s = (Throw PersistenceFailure, Session (store s) (txn s) (S (issued s))).
Proof. intros H. unfold call. rewrite H. reflexivity. Qed.

(** A rollback, failed or not, leaves the committed store alone. *)
Lemma rollback_store (s s' : session) (res : result ()) :
  rollback E s = (res, s') → store s' = store s.
Proof.
  unfold rollback, bind, call.
  destruct (faults E (issued s)); intros [= <- <-]; reflexivity.
Qed.

(** The shape shared by the purchase and the sales route: a connection is
    taken, the body runs inside try/catch with a rollback and a release,
    and an outer try/catch answers the same failure. *)
Lemma serve_transaction (body : M response) (failed : response) (d : db) :
  let h := try_catch
             (getConnection E ;;;
              finally (try_catch body (λ _, rollback E ;;; ret failed)) release)
             (λ _, ret failed) in
  (faults E 0%nat = true → serve h d = (failed, d))
  ∧ (faults E 0%nat = false →
     ∀ res s', body (Session d None 1) = (res, s') →
       match res with
       | Ok r => serve h d = (r, store s')
       | Throw _ => store s' = d → serve h d = (failed, d)
       end).
Proof.
  cbv zeta. split.
  - intros H0. unfold serve, try_catch, bind, getConnection.
    rewrite call_fail by exact H0. reflexivity.
  - intros H0 res s' Hbody.
    unfold serve, finally, release, try_catch, bind, getConnection, ret.
    rewrite call_ok by exact H0. cbn [issued store txn].
    rewrite Hbody. destruct res as [r|e].
    + reflexivity.
    + intros Hs'.
      destruct (rollback E s') as [[[]|e'] s''] eqn:Hrb;
        apply rollback_store in Hrb; simpl; congruence.
Qed.

(** The loop over the lines of a sale, inside an open transaction: either
    every update went through, or one of them failed and the committed
    store is as before. *)
Lemma for_of_deduct (l : list sale_item) :
  ∀ (s : session) (w : db) (res : result ()) (s' : session),
    txn s = Some w →
    for_of l (λ item,
      let q := Js.or0 (i_quantity item) in
      if SalesApi.deducts item
      then Sql.decrease_quantity E q (default 0 (i_item_id item))
      else ret tt) s = (res, s') →
    (res = Ok tt
     ∧ s' = Session (store s) (Some (Sql.set_inventory (deduct_all l) w))
                    (issued s + updates l)
     ∧ ∀ k, (issued s ≤ k < issued s + updates l)%nat → faults E k = false)
    ∨ (∃ e, res = Throw e ∧ store s' = store s
            ∧ ∃ k, (issued s ≤ k < issued s + updates l)%nat
                   ∧ faults E k = true).
Proof.
  induction l as [|item l IH]; intros s w res s' Hw.
  - cbn [for_of]. unfold ret. intros [= <- <-]. left.
    split; [reflexivity|]. split.
    + destruct s as [st tx n], w as [inv ps ss es]. simpl in Hw. subst tx.
      unfold Sql.set_inventory, deduct_all. simpl. f_equal. lia.
    + simpl. intros k Hk. lia.
  - cbn [for_of updates]. unfold bind at 1. cbv zeta.
    destruct (SalesApi.deducts item) eqn:Hd.
    + unfold Sql.decrease_quantity, execute, bind at 1.
      destruct (faults E (issued s)) eqn:Hf.
      * rewrite call_fail by exact Hf. intros [= <- <-]. right.
        eexists. split; [reflexivity|]. split; [reflexivity|].
        exists (issued s). split; [lia|exact Hf].
      * rewrite call_ok by exact Hf. unfold write at 1. cbn [txn store issued].
        rewrite Hw. intros Hrest.
        eapply IH in Hrest; [|reflexivity]. cbn [store issued] in Hrest.
        destruct Hrest as [(-> & -> & Hall) | (e & -> & Hst & k & Hk & Hfk)].
        -- left. split; [reflexivity|]. split.
           ++ f_equal; [|lia]. f_equal.
              unfold Sql.set_inventory, deduct_all. cbn [fold_left inventory purchases sales expenses].
              rewrite (deduct_yes item) by exact Hd. reflexivity.
           ++ intros k Hk. destruct (decide (k = issued s)) as [->|Hne];
                [exact Hf|apply Hall; lia].
        -- right. exists e. split; [reflexivity|]. split; [exact Hst|].
           exists k. split; [lia|exact Hfk].
    + unfold ret at 1. intros Hrest.
      eapply IH in Hrest; [|exact Hw].
      destruct Hrest as [(-> & -> & Hall) | (e & -> & Hst & k & Hk & Hfk)].
      * left. split; [reflexivity|]. split.
        -- f_equal. f_equal. unfold Sql.set_inventory, deduct_all.
           cbn [fold_left]. rewrite (deduct_no item) by exact Hd. reflexivity.
        -- intros k Hk. apply Hall. lia.
      * right. exists e. split; [reflexivity|]. split; [exact Hst|].
        exists k. split; [lia|exact Hfk].
Qed.

End DriverFacts.

Lemma sale_post_cases (E : env) (b : SalesApi.request) (l : list sale_item) (d : db) :
  SalesApi.items b = Some l → l ≠ [] →
  (SalesApi.post E b d
   = (Response 201 (BInvoice
        (SalesApi.invoiceNumber (year (today E)) (length (sales d) + 1))
        (SalesApi.grandTotal l (SalesApi.taxes_of b))),
      sale_committed E b l d)
   ∧ ∀ k, (k < sale_calls l)%nat → faults E k = false)
  ∨ (SalesApi.post E b d = (SalesApi.failed, d)
     ∧ ∃ k, (k < sale_calls l)%nat ∧ faults E k = true).
Proof.
  intros Hl Hne. unfold SalesApi.post, SalesApi.handler_post. rewrite Hl.
  destruct l as [|item0 l0]; [congruence|]. clear Hne.
  set (l := item0 :: l0) in *. cbv zeta.
  match goal with
  | |- context [try_catch (getConnection E ;;; finally (try_catch ?body _) _)%tx _] =>
      destruct (serve_transaction E body SalesApi.failed d) as [Hconn Hbody];
      destruct (body (Session d None 1)) as [res s'] eqn:Hrun
  end.
  destruct (faults E 0%nat) eqn:H0.
  { right. split; [apply Hconn; reflexivity|]. exists 0%nat.
    split; [unfold sale_calls; lia|exact H0]. }
  specialize (Hbody eq_refl _ _ eq_refl). clear Hconn.
  match goal with
  | |- context [serve ?h d] => set (out := serve h d) in *
  end.
  revert Hrun.
  unfold beginTransaction, Sql.count_sales, Sql.insert_sale, select, execute,
    commit, read, write, bind, call, ret.
  cbn [issued store txn working default].
  destruct (faults E 1%nat) eqn:H1; cbn [issued store txn working default].
  { intros [= <- <-]. right. split; [apply Hbody; reflexivity|].
    exists 1%nat. split; [unfold sale_calls; lia|exact H1]. }
  destruct (faults E 2%nat) eqn:H2; cbn [issued store txn working default].
  { intros [= <- <-]. right. split; [apply Hbody; reflexivity|].
    exists 2%nat. split; [unfold sale_calls; lia|exact H2]. }
  destruct (faults E 3%nat) eqn:H3; cbn [issued store txn working default].
  { intros [= <- <-]. right. split; [apply Hbody; reflexivity|].
    exists 3%nat. split; [unfold sale_calls; lia|exact H3]. }
  match goal with
  | |- context [for_of l ?f ?s] => destruct (for_of l f s) as [r1 s1] eqn:Hloop
  end.
  eapply for_of_deduct in Hloop; [|reflexivity].
  cbn [issued store txn] in Hloop.
  destruct Hloop as [(-> & -> & Hall) | (e & -> & Hst & k & Hk & Hfk)].
  - cbn [issued store txn working default].
    destruct (faults E (4 + updates l)%nat) eqn:H4; cbn [issued store txn working default].
    + intros [= <- <-]. right. split; [apply Hbody; reflexivity|].
      exists (4 + updates l)%nat. split; [unfold sale_calls; lia|exact H4].
    + intros [= <- <-]. left. split.
      * rewrite Hbody. reflexivity.
      * intros k Hk. unfold sale_calls in Hk.
        destruct (decide (k = 0%nat)) as [->|]; [exact H0|].
        destruct (decide (k = 1%nat)) as [->|]; [exact H1|].
        destruct (decide (k = 2%nat)) as [->|]; [exact H2|].
        destruct (decide (k = 3%nat)) as [->|]; [exact H3|].
        destruct (decide (k = 4 + updates l)%nat) as [->|]; [exact H4|].
        apply Hall. lia.
  - intros [= <- <-]. right. split; [apply Hbody; exact Hst|].
    exists k. split; [unfold sale_calls; lia|exact Hfk].
Qed.

Lemma purchase_post_rejected (E : env) (b : PurchaseApi.request) (d : db) :
  PurchaseApi.missing_fields b = true →
  PurchaseApi.post E b d = (Response 400 (BError "Missing required fields"), d).
Proof.
  intros H. unfold PurchaseApi.post, PurchaseApi.handler_post. rewrite H.
  reflexivity.
Qed.

Lemma purchase_post_cases (E : env) (b : PurchaseApi.request) (d : db) :
  PurchaseApi.missing_fields b = false →
  (PurchaseApi.post E b d
   = (Response 201 (BId (next_row_id (purchases d))), purchase_committed E b d)
   ∧ (∀ k, (k < 5)%nat → faults E k = false)
   ∧ is_Some (inventory d !! default 0 (PurchaseApi.item_id b)))
  ∨ (PurchaseApi.post E b d = (PurchaseApi.failed, d)
     ∧ ((∃ k, (k < 5)%nat ∧ faults E k = true)
        ∨ inventory d !! default 0 (PurchaseApi.item_id b) = None)).
Proof.
  intros Hm. unfold PurchaseApi.post, PurchaseApi.handler_post. rewrite Hm.
  unfold purchase_committed, purchase_record.
  destruct (PurchaseApi.item_id b) as [i|] eqn:Hi;
    [|unfold PurchaseApi.missing_fields in Hm; rewrite Hi in Hm; discriminate].
  cbv zeta. cbn [default].
  match goal with
  | |- context [try_catch (getConnection E ;;; finally (try_catch ?body _) _)%tx _] =>
      destruct (serve_transaction E body PurchaseApi.failed d) as [Hconn Hbody];
      destruct (body (Session d None 1)) as [res s'] eqn:Hrun
  end.
  destruct (faults E 0%nat) eqn:H0.
  { right. split; [apply Hconn; reflexivity|]. left. exists 0%nat.
    split; [lia|exact H0]. }
  specialize (Hbody eq_refl _ _ eq_refl). clear Hconn.
  match goal with
  | |- context [serve ?h d] => set (out := serve h d) in *
  end.
  revert Hrun.
  unfold beginTransaction, Sql.insert_purchase, Sql.increase_quantity, select,
    execute, commit, read, write, bind, call, ret, throw.
  cbn [issued store txn working default p_item_id p_id].
  destruct (faults E 1%nat) eqn:H1; cbn [issued store txn working default].
  { intros [= <- <-]. right. split; [apply Hbody; reflexivity|].
    left. exists 1%nat. split; [lia|exact H1]. }
  destruct (faults E 2%nat) eqn:H2; cbn [issued store txn working default].
  { intros [= <- <-]. right. split; [apply Hbody; reflexivity|].
    left. exists 2%nat. split; [lia|exact H2]. }
  cbn [Sql.references_ok].
  case_bool_decide as Hfk; cbn [issued store txn working default].
  2:{ intros [= <- <-]. right. split; [apply Hbody; reflexivity|].
      right. apply eq_None_not_Some. exact Hfk. }
  destruct (faults E 3%nat) eqn:H3; cbn [issued store txn working default].
  { intros [= <- <-]. right. split; [apply Hbody; reflexivity|].
    left. exists 3%nat. split; [lia|exact H3]. }
  destruct (faults E 4%nat) eqn:H4; cbn [issued store txn working default].
  { intros [= <- <-]. right. split; [apply Hbody; reflexivity|].
    left. exists 4%nat. split; [lia|exact H4]. }
  intros [= <- <-]. left. split; [rewrite Hbody; reflexivity|]. split.
  - intros k Hk.
    destruct (decide (k = 0%nat)) as [->|]; [exact H0|].
    destruct (decide (k = 1%nat)) as [->|]; [exact H1|].
    destruct (decide (k = 2%nat)) as [->|]; [exact H2|].
    destruct (decide (k = 3%nat)) as [->|]; [exact H3|].
    destruct (decide (k = 4%nat)) as [->|]; [exact H4|]. lia.
  - exact Hfk.
Qed.

Lemma item_post_eq (E : env) (b : InventoryApi.request) (d : db) :
  InventoryApi.post E b d
  = if InventoryApi.missing_fields b
    then (Response 400 (BError "Missing required fields"), d)
    else if faults E 0%nat
    then (Response 500 (BError "Failed to create inventory item"), d)
    else (Response 201 (BId (next_item_id (inventory d))),
          Db (<[next_item_id (inventory d) :=
                 InventoryRow (default EmptyString (InventoryApi.item_name b))
                              (default EmptyString (InventoryApi.category b))
                              (Js.or_null (InventoryApi.hsn_sac b))
                              (Js.or0 (InventoryApi.quantity b))
                              (Js.or0 (InventoryApi.rate b))
                              (InventoryApi.specs b)]> (inventory d))
             (purchases d) (sales d) (expenses d)).
Proof.
  unfold InventoryApi.post, InventoryApi.handler_post.
  destruct (InventoryApi.missing_fields b); [reflexivity|].
  unfold serve, try_catch, Sql.insert_item, bind, call, read, write, ret.
  cbn [issued store txn working default].
  destruct (faults E 0%nat); reflexivity.
Qed.

Lemma expense_post_eq (E : env) (b : ExpensesApi.request) (d : db) :
  ExpensesApi.post E b d
  = if ExpensesApi.missing_fields b
    then (Response 400 (BError "Description and amount are required"), d)
    else if faults E 0%nat
    then (Response 500 (BError "Failed to record expense"), d)
    else (Response 201 (BId (next_row_id (expenses d))),
          Db (inventory d) (purchases d) (sales d)
             (expenses d ++
                [ExpenseRow (next_row_id (expenses d))
                            (default EmptyString (ExpensesApi.description b))
                            (Js.or0 (ExpensesApi.amount b))
                            (Js.or_null (ExpensesApi.category b))
                            (default (today E) (ExpensesApi.date b))])).
Proof.
  unfold ExpensesApi.post, ExpensesApi.handler_post.
  destruct (ExpensesApi.missing_fields b); [reflexivity|].
  unfold serve, try_catch, Sql.insert_expense, bind, call, read, write, ret.
  cbn [issued store txn working default e_id].
  destruct (faults E 0%nat); reflexivity.
Qed.

(** The reports route only reads. *)
Lemma report_get_db (E : env) (q : ReportsApi.query) (d : db) :
  snd (ReportsApi.get E q d) = d.
Proof.
  unfold ReportsApi.get, ReportsApi.handler.
  destruct (ReportsApi.window E q) as [lo hi].
  unfold serve, try_catch, Sql.total_sales, Sql.total_purchases,
    Sql.total_expenses, select, bind, call, read, ret.
  cbn [issued store txn working default].
  destruct (faults E 0%nat); [reflexivity|]; cbn [issued store txn working default].
  destruct (faults E 1%nat); [reflexivity|]; cbn [issued store txn working default].
  destruct (faults E 2%nat); [reflexivity|]; cbn [issued store txn working default].
  case_bool_decide; [|reflexivity].
  cbn [issued store txn working default].
  destruct (faults E 3%nat); [reflexivity|]; cbn [issued store txn working default].
  destruct (faults E 4%nat); [reflexivity|]; cbn [issued store txn working default].
  destruct (faults E 5%nat); reflexivity.
Qed.

(** Without a failing query the report is the three sums over the window. *)
Lemma report_get_summary (E : env) (q : ReportsApi.query) (d : db) :
  (∀ k, faults E k = false) →
  ∃ detail,
    fst (ReportsApi.get E q d)
    = Response 200 (BReport
        (let '(lo, hi) := ReportsApi.window E q in
         let s := sum_Qc (s_grand_total <$> Sql.sales_between lo hi d) in
         let p := sum_Qc ((λ r, p_quantity r * p_rate r)%Qc
                            <$> Sql.purchases_between lo hi d) in
         let x := sum_Qc (e_amount <$> Sql.expenses_between lo hi d) in
         Summary s p x (s - (p + x))%Qc)
        detail).
Proof.
  intros Hf. unfold ReportsApi.get, ReportsApi.handler.
  destruct (ReportsApi.window E q) as [lo hi].
  unfold serve, try_catch, Sql.total_sales, Sql.total_purchases,
    Sql.total_expenses, select, bind, call, read, ret.
  cbn [issued store txn working default].
  rewrite !Hf. cbn [issued store txn working default].
  case_bool_decide; cbn [issued store txn working default].
  - rewrite !Hf. cbn [issued store txn working default fst]. eauto.
  - cbn [fst]. eauto.
Qed.

(** ** Stock updates of a sale *)



Lemma deduct_unknown (item : sale_item) (inv : gmap Z inventory_row) :
  ¬ known inv item → deduct item inv = inv.
Proof.
  intros Hk. unfold deduct. destruct (SalesApi.deducts item); [|reflexivity].
  apply map_eq. intros j. rewrite lookup_alter. case_decide as Hj; [|reflexivity].
  subst j. unfold known in Hk. apply eq_None_not_Some in Hk. rewrite Hk.
  reflexivity.
Qed.

Lemma known_deduct (item item' : sale_item) (inv : gmap Z inventory_row) :
  known (deduct item inv) item' ↔ known inv item'.
Proof.
  unfold known, deduct. destruct (SalesApi.deducts item); [|reflexivity].
  rewrite lookup_alter. case_decide as Hj; [|reflexivity].
  rewrite fmap_is_Some, Hj. reflexivity.
Qed.

Lemma deduct_all_known (l : list sale_item) (inv0 inv : gmap Z inventory_row) :
  (∀ item, known inv item ↔ known inv0 item) →
  deduct_all l inv = deduct_all (filter (known inv0) l) inv.
Proof.
  revert inv. induction l as [|item l IH]; intros inv Hk; [reflexivity|].
  rewrite filter_cons. unfold deduct_all. cbn [fold_left].
  fold (deduct_all l (deduct item inv)).
  assert (Hk' : ∀ item', known (deduct item inv) item' ↔ known inv0 item').
  { intros item'. rewrite known_deduct. apply Hk. }
  case_decide as Hd.
  - cbn [fold_left]. fold (deduct_all (filter (known inv0) l) (deduct item inv)).
    apply IH. exact Hk'.
  - rewrite (deduct_unknown item inv) by (rewrite Hk; exact Hd).
    apply IH. exact Hk.
Qed.


Lemma sale_post_ok (E : env) (b : SalesApi.request) (l : list sale_item) (d : db) :
  SalesApi.items b = Some l → l ≠ [] → (∀ k, faults E k = false) →
  SalesApi.post E b d
  = (Response 201 (BInvoice
       (SalesApi.invoiceNumber (year (today E)) (length (sales d) + 1))
       (SalesApi.grandTotal l (SalesApi.taxes_of b))),
     sale_committed E b l d).
Proof.
  intros Hl Hne Hf.
  destruct (sale_post_cases E b l d Hl Hne) as [[Hok _] | [_ (k & _ & Hk)]].
  - exact Hok.
  - rewrite Hf in Hk. discriminate.
Qed.

(** ** C3: a failed sale leaves no trace *)

(** C3.  For every sale request with a non-empty list of lines, if any
    driver call of the transaction fails (taking the connection, opening the
    transaction, the invoice count, the insert of the sale record, any of
    the stock updates, or the commit), the route answers its failure
    response and the database is exactly what it was: no stock update and
    no sale record is visible. *)
Theorem sale_is_atomic (E : env) (b : SalesApi.request) (l : list sale_item)
    (d : db) :
  SalesApi.items b = Some l → l ≠ [] →
  (∃ k, (k < sale_calls l)%nat ∧ faults E k = true) →
  SalesApi.post E b d = (SalesApi.failed, d).
Proof.
  intros Hl Hne (k & Hk & Hfk).
  destruct (sale_post_cases E b l d Hl Hne) as [[_ Hall] | [Hfail _]].
  - rewrite (Hall k Hk) in Hfk. discriminate.
  - exact Hfail.
Qed.

(** A sale of two lines whose second stock update fails: the first update
    and the sale record are rolled back. *)
Lemma sale_is_atomic_witness :
  SalesApi.post (failing 5) (sell [line 1 30 10; line 1 20 10] 5 5 0) db_A
  = (SalesApi.failed, db_A).
Proof.
  apply (sale_is_atomic (failing 5) _ [line 1 30 10; line 1 20 10]).
  - reflexivity.
  - discriminate.
  - exists 5%nat. split; [vm_compute; lia | reflexivity].
Defined.

(** ** C4: the totals of a sale *)



(** ** C8: a purchase adds to the stock of its item only *)



(** ** C9: lines that deduct nothing *)



(** ** C10: a zero counts as a missing field *)

(** C10.  A request whose required numeric field is 0 is answered like the
    request without that field, with status 400 and the database unchanged:
    quantity 0 or rate 0 when creating an inventory item, quantity 0 or
    rate 0 when recording a purchase, amount 0 when recording an expense. *)
Theorem zero_is_missing (E : env) (d : db) :
  (∀ n c h x s,
     InventoryApi.post E (InventoryApi.Request n c h (Some 0%Qc) x s) d
     = (Response 400 (BError "Missing required fields"), d)
     ∧ InventoryApi.post E (InventoryApi.Request n c h None x s) d
       = (Response 400 (BError "Missing required fields"), d))
  ∧ (∀ n c h x s,
       InventoryApi.post E (InventoryApi.Request n c h x (Some 0%Qc) s) d
       = (Response 400 (BError "Missing required fields"), d)
       ∧ InventoryApi.post E (InventoryApi.Request n c h x None s) d
         = (Response 400 (BError "Missing required fields"), d))
  ∧ (∀ i x dt v n c s g,
       PurchaseApi.post E (PurchaseApi.Request i (Some 0%Qc) x dt v n c s g) d
       = (Response 400 (BError "Missing required fields"), d)
       ∧ PurchaseApi.post E (PurchaseApi.Request i None x dt v n c s g) d
         = (Response 400 (BError "Missing required fields"), d))
  ∧ (∀ i x dt v n c s g,
       PurchaseApi.post E (PurchaseApi.Request i x (Some 0%Qc) dt v n c s g) d
       = (Response 400 (BError "Missing required fields"), d)
       ∧ PurchaseApi.post E (PurchaseApi.Request i x None dt v n c s g) d
         = (Response 400 (BError "Missing required fields"), d))
  ∧ (∀ t c dt,
       ExpensesApi.post E (ExpensesApi.Request t (Some 0%Qc) c dt) d
       = (Response 400 (BError "Description and amount are required"), d)
       ∧ ExpensesApi.post E (ExpensesApi.Request t None c dt) d
         = (Response 400 (BError "Description and amount are required"), d)).
Proof.
  repeat split; intros.
  1-4: rewrite item_post_eq; unfold InventoryApi.missing_fields;
       cbn [InventoryApi.item_name InventoryApi.category InventoryApi.quantity
            InventoryApi.rate Js.truthy_num];
       rewrite ?bool_decide_eq_true_2 by reflexivity;
       cbn [negb]; rewrite ?orb_true_r; reflexivity.
  1-4: apply purchase_post_rejected; unfold PurchaseApi.missing_fields;
       cbn [PurchaseApi.item_id PurchaseApi.quantity PurchaseApi.rate
            Js.truthy_num];
       rewrite ?bool_decide_eq_true_2 by reflexivity;
       cbn [negb]; rewrite ?orb_true_r; reflexivity.
  1-2: rewrite expense_post_eq; unfold ExpensesApi.missing_fields;
       cbn [ExpensesApi.description ExpensesApi.amount Js.truthy_num];
       rewrite ?bool_decide_eq_true_2 by reflexivity;
       cbn [negb]; rewrite ?orb_true_r; reflexivity.
Qed.

(** ** C5: what the purchase route validates *)

(** C5, as the code has it.  The purchase route answers 400 exactly when
    item_id, quantity or rate is missing or zero; it then answers before any
    driver call, so no purchase record is written and no quantity changes.
    A negative quantity or rate passes the validation. *)
Theorem purchase_validation (E : env) (b : PurchaseApi.request) (d : db) :
  (status (fst (PurchaseApi.post E b d)) = 400
   ↔ (PurchaseApi.item_id b = None ∨ PurchaseApi.item_id b = Some 0)
     ∨ (PurchaseApi.quantity b = None ∨ PurchaseApi.quantity b = Some 0%Qc)
     ∨ (PurchaseApi.rate b = None ∨ PurchaseApi.rate b = Some 0%Qc))
  ∧ (status (fst (PurchaseApi.post E b d)) = 400 →
     PurchaseApi.post E b d
     = (Response 400 (BError "Missing required fields"), d)).
Proof.
  assert (Hm : PurchaseApi.missing_fields b = true
               ↔ (PurchaseApi.item_id b = None ∨ PurchaseApi.item_id b = Some 0)
                 ∨ (PurchaseApi.quantity b = None
                    ∨ PurchaseApi.quantity b = Some 0%Qc)
                 ∨ (PurchaseApi.rate b = None ∨ PurchaseApi.rate b = Some 0%Qc)).
  { unfold PurchaseApi.missing_fields.
    rewrite !orb_true_iff, !negb_true_iff.
    rewrite truthy_id_spec, !truthy_num_spec. tauto. }
  assert (Hs : status (fst (PurchaseApi.post E b d)) = 400
               ↔ PurchaseApi.missing_fields b = true).
  { destruct (PurchaseApi.missing_fields b) eqn:Hmf.
    - rewrite (purchase_post_rejected E b d Hmf). simpl. tauto.
    - destruct (purchase_post_cases E b d Hmf) as [(-> & _) | (-> & _)];
        simpl; split; discriminate. }
  split.
  - rewrite Hs. exact Hm.
  - intros H. apply purchase_post_rejected, Hs, H.
Qed.

(** A purchase of quantity 0 is answered with 400 before anything is
    written. *)
Lemma purchase_validation_witness :
  PurchaseApi.post calm (buy 1 0 9) db_created
  = (Response 400 (BError "Missing required fields"), db_created).
Proof.
  apply (proj2 (purchase_validation calm (buy 1 0 9) db_created)).
  vm_compute. reflexivity.
Defined.

(** The claim as the specification words it fails on a purchase of quantity
    -5: it is not greater than 0, yet the purchase is recorded and the stock
    of the widget goes from 100 to 95. *)
Lemma purchase_validation_counterexample :
  ¬ (0 < num (-5))%Qc
  ∧ stock db_created 1 = Some (num 100)
  ∧ status (fst (PurchaseApi.post calm (buy 1 (-5) 9) db_created)) = 201
  ∧ stock (snd (PurchaseApi.post calm (buy 1 (-5) 9) db_created)) 1
    = Some (num 95)
  ∧ length (purchases (snd (PurchaseApi.post calm (buy 1 (-5) 9) db_created)))
    = 1%nat.
Proof.
  split; [intros H; vm_compute in H; discriminate|].
  split; [vm_compute; reflexivity|]. split; [vm_compute; reflexivity|].
  split; vm_compute; reflexivity.
Qed.

(** ** C1: a sale that names an unknown item *)

(** C1, as the code has it.  For every sale request with a line whose item
    id names no inventory row, when no driver call fails the sale is not
    refused: it is answered with 201, its record holding every line is
    added to the sales ledger, and the inventory afterwards is what the
    lines that name an inventory row make of it; the unknown line changes
    no quantity. *)
Theorem unknown_item_is_sold (E : env) (b : SalesApi.request)
    (l : list sale_item) (d : db) :
  SalesApi.items b = Some l →
  (∃ item, item ∈ l ∧ inventory d !! default 0 (i_item_id item) = None) →
  (∀ k, faults E k = false) →
  ∃ number total row d',
    SalesApi.post E b d = (Response 201 (BInvoice number total), d')
    ∧ sales d' = sales d ++ [row] ∧ s_items row = l
    ∧ inventory d' = deduct_all (filter (known (inventory d)) l) (inventory d)
    ∧ purchases d' = purchases d ∧ expenses d' = expenses d.
Proof.
  intros Hl (item & Hin & _) Hf.
  assert (Hne : l ≠ []) by (intros ->; inversion Hin).
  eexists _, _, (sale_record E b l d), _.
  split; [exact (sale_post_ok E b l d Hl Hne Hf)|].
  split; [reflexivity|]. split; [reflexivity|].
  split; [|split; reflexivity].
  cbn [sale_committed inventory]. apply deduct_all_known. reflexivity.
Qed.

Lemma unknown_item_is_sold_witness :
  ∃ number total row d',
    SalesApi.post calm (sell [line 99 1 10] 0 0 0) db_A
    = (Response 201 (BInvoice number total), d')
    ∧ sales d' = sales db_A ++ [row] ∧ s_items row = [line 99 1 10]
    ∧ inventory d'
      = deduct_all (filter (known (inventory db_A)) [line 99 1 10]) (inventory db_A)
    ∧ purchases d' = purchases db_A ∧ expenses d' = expenses db_A.
Proof.
  apply (unknown_item_is_sold calm (sell [line 99 1 10] 0 0 0) [line 99 1 10] db_A).
  - reflexivity.
  - exists (line 99 1 10). split; [apply list_elem_of_here|reflexivity].
  - reflexivity.
Defined.

(** The claim as the specification words it fails on a sale of item 99,
    which is not in the inventory: the sale is answered with 201 and its
    record is in the ledger. *)
Lemma unknown_item_is_sold_counterexample :
  inventory db_A !! 99 = None
  ∧ status (fst (SalesApi.post calm (sell [line 99 1 10] 0 0 0) db_A)) = 201
  ∧ length (sales db_A) = 0%nat
  ∧ length (sales (snd (SalesApi.post calm (sell [line 99 1 10] 0 0 0) db_A)))
    = 1%nat.
Proof.
  split; [reflexivity|]. split; [vm_compute; reflexivity|].
  split; vm_compute; reflexivity.
Qed.

(** ** C2: conservation of stock *)




Lemma sale_post_rejected (E : env) (b : SalesApi.request) (d : db) :
  SalesApi.items b = None ∨ SalesApi.items b = Some [] →
  SalesApi.post E b d = (Response 400 (BError "Items are required"), d).
Proof.
  intros [H|H]; unfold SalesApi.post, SalesApi.handler_post; rewrite H;
    reflexivity.
Qed.

(** Every outcome of the sales route. *)
Lemma sale_post_outcomes (E : env) (b : SalesApi.request) (d : db) :
  SalesApi.post E b d = (Response 400 (BError "Items are required"), d)
  ∨ SalesApi.post E b d = (SalesApi.failed, d)
  ∨ ∃ l, SalesApi.items b = Some l ∧ l ≠ []
         ∧ SalesApi.post E b d
           = (Response 201 (BInvoice
                (SalesApi.invoiceNumber (year (today E)) (length (sales d) + 1))
                (SalesApi.grandTotal l (SalesApi.taxes_of b))),
              sale_committed E b l d).
Proof.
  destruct (SalesApi.items b) as [[|item l]|] eqn:Hl.
  - left. apply sale_post_rejected. auto.
  - right. destruct (sale_post_cases E b (item :: l) d Hl) as [[H _]|[H _]];
      [discriminate| |left; exact H].
    right. exists (item :: l). split; [reflexivity|]. split; [discriminate|exact H].
  - left. apply sale_post_rejected. auto.
Qed.

(** Every outcome of the purchase route. *)
Lemma purchase_post_outcomes (E : env) (b : PurchaseApi.request) (d : db) :
  PurchaseApi.post E b d = (Response 400 (BError "Missing required fields"), d)
  ∨ PurchaseApi.post E b d = (PurchaseApi.failed, d)
  ∨ (PurchaseApi.missing_fields b = false
     ∧ is_Some (inventory d !! default 0 (PurchaseApi.item_id b))
     ∧ PurchaseApi.post E b d
       = (Response 201 (BId (next_row_id (purchases d))), purchase_committed E b d)).
Proof.
  destruct (PurchaseApi.missing_fields b) eqn:Hm.
  - left. apply purchase_post_rejected, Hm.
  - right. destruct (purchase_post_cases E b d Hm) as [(H & _ & Hex)|[H _]]; auto.
Qed.








(** ** C7: the report over a date window *)



(** ** C6: invoice numbers *)

Lemma is_digit_digit (k : Z) : 0 ≤ k < 10 → is_digit (Js.digit k) = true.
Proof.
  intros Hk. unfold is_digit, Js.digit.
  rewrite nat_ascii_embedding by lia.
  apply andb_true_iff. split; apply Nat.leb_le; lia.
Qed.

Lemma digits_S (f : nat) (n : Z) (acc : string) :
  Js.digits (S f) n acc
  = if n / 10 =? 0 then String (Js.digit (n mod 10)) acc
    else Js.digits f (n / 10) (String (Js.digit (n mod 10)) acc).
Proof. reflexivity. Qed.

Lemma all_digits_digits (f : nat) :
  ∀ (n : Z) (acc : string),
    all_digits acc = true → all_digits (Js.digits f n acc) = true.
Proof.
  induction f as [|f IH]; intros n acc Hacc; [exact Hacc|].
  rewrite digits_S.
  assert (Hd : all_digits (String (Js.digit (n mod 10)) acc) = true).
  { cbn [all_digits]. rewrite is_digit_digit, Hacc; [reflexivity|].
    apply Z.mod_pos_bound. lia. }
  destruct (n / 10 =? 0); [exact Hd|]. apply IH, Hd.
Qed.

Lemma length_digits (f : nat) :
  ∀ (n : Z) (acc : string),
    (String.length acc ≤ String.length (Js.digits f n acc))%nat.
Proof.
  induction f as [|f IH]; intros n acc; [reflexivity|].
  rewrite digits_S. destruct (n / 10 =? 0).
  - cbn [String.length]. lia.
  - etrans; [|apply IH]. cbn [String.length]. lia.
Qed.

Lemma all_digits_String_int (z : Z) :
  0 ≤ z → all_digits (Js.String_int z) = true
          ∧ (1 ≤ String.length (Js.String_int z))%nat.
Proof.
  intros Hz. unfold Js.String_int.
  destruct (Z.ltb_spec z 0) as [?|_]; [lia|]. split.
  - apply all_digits_digits. reflexivity.
  - rewrite digits_S. destruct (z / 10 =? 0).
    + cbn [String.length]. lia.
    + etrans; [|apply length_digits]. cbn [String.length]. lia.
Qed.

Lemma length_append (s1 s2 : string) :
  String.length (s1 ++ s2) = (String.length s1 + String.length s2)%nat.
Proof. induction s1 as [|c s1 IH]; simpl; [reflexivity|f_equal; exact IH]. Qed.

Lemma all_digits_append (s1 s2 : string) :
  all_digits s1 = true → all_digits s2 = true → all_digits (s1 ++ s2) = true.
Proof.
  intros H1 H2. induction s1 as [|c s1 IH]; [exact H2|].
  cbn [all_digits] in H1. apply andb_true_iff in H1 as [Hc H1].
  change (String c s1 ++ s2)%string with (String c (s1 ++ s2)).
  cbn [all_digits]. rewrite Hc, IH by exact H1. reflexivity.
Qed.

Lemma replicate_zero (k : nat) :
  all_digits (Js.replicate_char k "0") = true
  ∧ String.length (Js.replicate_char k "0") = k.
Proof.
  induction k as [|k [IH1 IH2]]; [split; reflexivity|].
  cbn [Js.replicate_char all_digits String.length]. rewrite IH1, IH2.
  split; reflexivity.
Qed.

Lemma padStart_digits (s : string) :
  all_digits s = true →
  all_digits (Js.padStart 3 "0" s) = true
  ∧ (3 ≤ String.length (Js.padStart 3 "0" s))%nat.
Proof.
  intros Hs. unfold Js.padStart.
  destruct (replicate_zero (3 - String.length s)) as [Ha Hl]. split.
  - apply all_digits_append; assumption.
  - rewrite length_append, Hl. lia.
Qed.

(** A year of four digits prints as four digits. *)
Lemma String_int_year (y : Z) :
  1000 ≤ y ≤ 9999 →
  Js.String_int y
  = String (Js.digit (y / 10 / 10 / 10 mod 10))
      (String (Js.digit (y / 10 / 10 mod 10))
         (String (Js.digit (y / 10 mod 10))
            (String (Js.digit (y mod 10)) EmptyString))).
Proof.
  intros Hy. unfold Js.String_int.
  destruct (Z.ltb_spec y 0) as [?|_]; [lia|].
  replace (S (Z.to_nat y)) with (S (S (S (S (Z.to_nat y - 3))))) by lia.
  assert (H1 : 100 ≤ y / 10 ≤ 999).
  { split; [apply Z.div_le_lower_bound; lia|].
    apply Z.lt_succ_r, Z.div_lt_upper_bound; lia. }
  assert (H2 : 10 ≤ y / 10 / 10 ≤ 99).
  { split; [apply Z.div_le_lower_bound; lia|].
    apply Z.lt_succ_r, Z.div_lt_upper_bound; lia. }
  assert (H3 : 1 ≤ y / 10 / 10 / 10 ≤ 9).
  { split; [apply Z.div_le_lower_bound; lia|].
    apply Z.lt_succ_r, Z.div_lt_upper_bound; lia. }
  assert (H4 : y / 10 / 10 / 10 / 10 = 0) by (apply Z.div_small; lia).
  rewrite digits_S. destruct (Z.eqb_spec (y / 10) 0) as [?|_]; [lia|].
  rewrite digits_S. destruct (Z.eqb_spec (y / 10 / 10) 0) as [?|_]; [lia|].
  rewrite digits_S. destruct (Z.eqb_spec (y / 10 / 10 / 10) 0) as [?|_]; [lia|].
  rewrite digits_S, H4. reflexivity.
Qed.

Lemma invoiceNumber_matches (y : Z) (n : nat) :
  1000 ≤ y ≤ 9999 →
  matches_invoice_pattern (SalesApi.invoiceNumber y n) = true.
Proof.
  intros Hy. unfold SalesApi.invoiceNumber. rewrite (String_int_year y Hy).
  unfold matches_invoice_pattern. cbv [String.append].
  destruct (all_digits_String_int (Z.of_nat n)) as [Ha Hl]; [lia|].
  destruct (padStart_digits _ Ha) as [Hp Hpl].
  rewrite !is_digit_digit by (apply Z.mod_pos_bound; lia).
  rewrite Hp. cbn [andb]. apply Nat.leb_le. exact Hpl.
Qed.

(** The digits of a non-negative integer read back as that integer: the
    fuel of [Js.String_int] is enough. *)
Lemma digits_value (f : nat) :
  ∀ (n : Z) (acc : string),
    0 ≤ n < 10 ^ Z.of_nat f →
    decimal_value (Js.digits f n acc) 0 = decimal_value acc n.
Proof.
  induction f as [|f IH]; intros n acc Hn.
  - cbn [Js.digits]. replace n with 0 by (simpl in Hn; lia). reflexivity.
  - rewrite digits_S.
    assert (Hd : nat_of_ascii (Js.digit (n mod 10)) = Z.to_nat (48 + n mod 10)).
    { unfold Js.digit. apply nat_ascii_embedding.
      pose proof (Z.mod_pos_bound n 10). lia. }
    pose proof (Z.mod_pos_bound n 10 ltac:(lia)) as Hm.
    pose proof (Z.div_mod n 10 ltac:(lia)) as Hdm.
    destruct (Z.eqb_spec (n / 10) 0) as [H0|H0].
    + cbn [decimal_value]. rewrite Hd. f_equal. lia.
    + rewrite IH.
      * cbn [decimal_value]. rewrite Hd. f_equal. lia.
      * split; [apply Z.div_pos; lia|].
        apply Z.div_lt_upper_bound; [lia|].
        rewrite Nat2Z.inj_succ, Z.pow_succ_r in Hn by lia. lia.
Qed.

Lemma String_int_value (z : Z) : 0 ≤ z → decimal_value (Js.String_int z) 0 = z.
Proof.
  intros Hz. unfold Js.String_int. destruct (Z.ltb_spec z 0) as [?|_]; [lia|].
  rewrite digits_value; [reflexivity|]. split; [exact Hz|].
  rewrite Nat2Z.inj_succ, Z2Nat.id by exact Hz.
  pose proof (Z.pow_gt_lin_r 10 z ltac:(lia) Hz) as Hlin.
  rewrite Z.pow_succ_r by exact Hz. lia.
Qed.

(** No request removes a sale record, and a recorded sale adds one. *)
Lemma sales_length_dispatch (E : env) (r : request) (d : db) :
  (length (sales d) ≤ length (sales (snd (dispatch E r d))))%nat.
Proof.
  destruct r as [b|b|b|b|q]; cbn [dispatch].
  - rewrite item_post_eq.
    destruct (InventoryApi.missing_fields b); [reflexivity|].
    destruct (faults E 0%nat); reflexivity.
  - destruct (purchase_post_outcomes E b d) as [-> | [-> | (_ & _ & ->)]];
      reflexivity.
  - destruct (sale_post_outcomes E b d) as [-> | [-> | (l & _ & _ & ->)]];
      [reflexivity..|].
    cbn [snd sale_committed sales]. rewrite length_app. lia.
  - rewrite expense_post_eq.
    destruct (ExpensesApi.missing_fields b); [reflexivity|].
    destruct (faults E 0%nat); reflexivity.
  - rewrite report_get_db. reflexivity.
Qed.

Lemma sales_length_run (t : list (env * request)) (d : db) :
  (length (sales d) ≤ length (sales (run t d)))%nat.
Proof.
  revert d. induction t as [|[E r] t IH]; intros d; [reflexivity|].
  unfold run. cbn [fold_left]. fold (run t (snd (dispatch E r d))).
  etrans; [apply sales_length_dispatch|apply IH].
Qed.

(** A sale answered with 201 and an invoice: what was written. *)
Lemma sale_post_201 (E : env) (b : SalesApi.request) (d d' : db)
    (number : string) (total : Qc) :
  SalesApi.post E b d = (Response 201 (BInvoice number total), d') →
  ∃ l, SalesApi.items b = Some l ∧ l ≠ []
       ∧ number = SalesApi.invoiceNumber (year (today E)) (length (sales d) + 1)
       ∧ d' = sale_committed E b l d.
Proof.
  intros Hpost.
  destruct (sale_post_outcomes E b d) as [H | [H | (l & Hl & Hne & H)]];
    rewrite H in Hpost.
  - discriminate.
  - discriminate.
  - exists l. injection Hpost as <- _ <-. auto.
Qed.

(** C6.  The invoice number of every recorded sale is the text INV-, the
    current year, a dash, and the count of the sale records present when it
    was generated plus one, printed in decimal and padded with zeros on the
    left to three digits; the record stored carries that number.  When the
    current year has four digits the number matches INV-\d{4}-\d{3,}.  Of
    two sales recorded one after the other, with any requests served in
    between, the later one has the strictly larger sequence number. *)
Theorem invoice_numbers :
  (∀ (E : env) (b : SalesApi.request) (d d' : db) (number : string) (total : Qc),
     SalesApi.post E b d = (Response 201 (BInvoice number total), d') →
     number
     = ("INV-" ++ Js.String_int (year (today E)) ++ "-"
          ++ Js.padStart 3 "0" (Js.String_int (Z.of_nat (length (sales d) + 1))))%string
     ∧ (∃ row, sales d' = sales d ++ [row] ∧ s_invoice_number row = number)
     ∧ (1000 ≤ year (today E) ≤ 9999 → matches_invoice_pattern number = true))
  ∧ (∀ (E1 E2 : env) (b1 b2 : SalesApi.request) (t : list (env * request))
       (d d1 d2 : db) (number1 number2 : string) (total1 total2 : Qc),
       SalesApi.post E1 b1 d = (Response 201 (BInvoice number1 total1), d1) →
       SalesApi.post E2 b2 (run t d1) = (Response 201 (BInvoice number2 total2), d2) →
       ∃ n1 n2 : nat,
         number1 = SalesApi.invoiceNumber (year (today E1)) n1
         ∧ number2 = SalesApi.invoiceNumber (year (today E2)) n2
         ∧ n1 = (length (sales d) + 1)%nat
         ∧ n2 = (length (sales (run t d1)) + 1)%nat
         ∧ (n1 < n2)%nat).
Proof.
  split.
  - intros E b d d' number total Hpost.
    destruct (sale_post_201 E b d d' number total Hpost) as (l & _ & _ & -> & ->).
    split; [reflexivity|]. split.
    + exists (sale_record E b l d). split; reflexivity.
    + apply invoiceNumber_matches.
  - intros E1 E2 b1 b2 t d d1 d2 number1 number2 total1 total2 H1 H2.
    destruct (sale_post_201 _ _ _ _ _ _ H1) as (l1 & _ & _ & -> & ->).
    destruct (sale_post_201 _ _ _ _ _ _ H2) as (l2 & _ & _ & -> & _).
    eexists _, _. split; [reflexivity|]. split; [reflexivity|].
    split; [reflexivity|]. split; [reflexivity|].
    pose proof (sales_length_run t (sale_committed E1 b1 l1 d)) as Hle.
    cbn [sale_committed sales] in Hle. rewrite length_app in Hle.
    cbn [length] in Hle. lia.
Qed.

(** The sale of scenario B is the first of the ledger, in 2024; a second
    sale after the expense of scenario D gets the next number. *)
Lemma invoice_numbers_witness :
  ("INV-2024-001"%string
   = ("INV-" ++ Js.String_int (year (today calm)) ++ "-"
        ++ Js.padStart 3 "0" (Js.String_int (Z.of_nat (length (sales db_A) + 1))))%string
   ∧ (∃ row, sales db_B = sales db_A ++ [row]
             ∧ s_invoice_number row = "INV-2024-001"%string)
   ∧ (1000 ≤ year (today calm) ≤ 9999 →
      matches_invoice_pattern "INV-2024-001" = true))
  ∧ (∃ n1 n2 : nat,
       "INV-2024-001"%string = SalesApi.invoiceNumber (year (today calm)) n1
       ∧ "INV-2024-002"%string = SalesApi.invoiceNumber (year (today calm)) n2
       ∧ n1 = (length (sales db_A) + 1)%nat
       ∧ n2 = (length (sales (run [(calm, PostExpense (spend 50))] db_B)) + 1)%nat
       ∧ (n1 < n2)%nat).
Proof.
  split.
  - apply (proj1 invoice_numbers calm (sell [line 1 30 10] 5 5 0) db_A db_B
             "INV-2024-001"%string (num 310)).
    vm_compute. reflexivity.
  - apply (proj2 invoice_numbers calm calm (sell [line 1 30 10] 5 5 0)
             (sell [line 1 10 10] 0 0 0) [(calm, PostExpense (spend 50))]
             db_A db_B
             (snd (SalesApi.post calm (sell [line 1 10 10] 0 0 0) db_D))
             "INV-2024-001"%string "INV-2024-002"%string (num 310) (num 100)).
    + vm_compute. reflexivity.
    + vm_compute. reflexivity.
Defined.

(** * More of the routes *)

(** ** Keys of the inventory table *)

Lemma next_item_id_above (inv : gmap Z inventory_row) (i : Z) :
  is_Some (inv !! i) → i < next_item_id inv.
Proof.
  unfold next_item_id.
  assert (H : ∀ i, is_Some (inv !! i) →
              i ≤ map_fold (λ k (_ : inventory_row) acc, Z.max k acc) 0 inv).
  { apply (map_fold_weak_ind
             (λ b (m : gmap Z inventory_row), ∀ i, is_Some (m !! i) → i ≤ b)).
    - intros j [x Hx]. rewrite lookup_empty in Hx. discriminate.
    - intros k x m b Hk IH j Hj. rewrite lookup_insert in Hj.
      case_decide as Hkj.
      + subst. lia.
      + specialize (IH j Hj). lia. }
  intros Hi. specialize (H i Hi). lia.
Qed.

Lemma next_item_id_fresh (inv : gmap Z inventory_row) :
  inv !! next_item_id inv = None.
Proof.
  apply eq_None_not_Some. intros H. apply next_item_id_above in H. lia.
Qed.

(** ** The purchase route: all or nothing *)

(** X1.  A purchase is recorded, with status 201, exactly when its three
    required fields are present, none of the five driver calls of the
    transaction fails and the item it names is in the inventory; in every
    other case (validation, failing call, unknown item refused by the
    foreign key) the database is left as it was. *)
Theorem purchase_all_or_nothing (E : env) (b : PurchaseApi.request) (d : db) :
  (status (fst (PurchaseApi.post E b d)) = 201
   ↔ PurchaseApi.missing_fields b = false
     ∧ (∀ k, (k < 5)%nat → faults E k = false)
     ∧ is_Some (inventory d !! default 0 (PurchaseApi.item_id b)))
  ∧ (status (fst (PurchaseApi.post E b d)) ≠ 201 →
     snd (PurchaseApi.post E b d) = d)
  ∧ (status (fst (PurchaseApi.post E b d)) = 201 →
     snd (PurchaseApi.post E b d) = purchase_committed E b d).
Proof.
  destruct (PurchaseApi.missing_fields b) eqn:Hm.
  - rewrite (purchase_post_rejected E b d Hm). cbn [fst snd status].
    split; [|split]; [split|..]; try discriminate; try reflexivity.
    intros [H _]. discriminate.
  - destruct (purchase_post_cases E b d Hm) as [(-> & Hall & Hex) | (-> & Hwhy)];
      cbn [fst snd status PurchaseApi.failed].
    + split; [|split]; [split|..]; auto. intros H; contradiction.
    + split; [|split]; [split|..]; try discriminate; try reflexivity.
      intros (_ & Hall & Hex). destruct Hwhy as [(k & Hk & Hfk) | Hnone].
      * rewrite (Hall k Hk) in Hfk. discriminate.
      * rewrite Hnone in Hex. destruct Hex as [? ?]. discriminate.
Qed.

(** A purchase for item 99, which does not exist: nothing is written. *)
Lemma purchase_all_or_nothing_witness :
  snd (PurchaseApi.post calm (buy 99 5 9) db_created) = db_created.
Proof.
  apply (proj1 (proj2 (purchase_all_or_nothing calm (buy 99 5 9) db_created))).
  vm_compute. discriminate.
Defined.

(** ** The sales route: validation and stock *)

(** X2.  The sales route answers 400 exactly when the items of the request
    are missing, not an array, or an empty array; it then answers "Items are
    required" and the database is left as it was. *)
Theorem sale_validation (E : env) (b : SalesApi.request) (d : db) :
  (status (fst (SalesApi.post E b d)) = 400
   ↔ SalesApi.items b = None ∨ SalesApi.items b = Some [])
  ∧ (status (fst (SalesApi.post E b d)) = 400 →
     SalesApi.post E b d = (Response 400 (BError "Items are required"), d)).
Proof.
  destruct (SalesApi.items b) as [[|item l]|] eqn:Hl.
  - rewrite (sale_post_rejected E b d (or_intror Hl)). cbn [fst status].
    split; [split; [intros _; right|]|]; reflexivity.
  - destruct (sale_post_cases E b (item :: l) d Hl) as [[-> _]|[-> _]];
      [discriminate|..]; cbn [fst status SalesApi.failed];
      (split; [split; [discriminate|intros [?|?]; discriminate]|discriminate]).
  - rewrite (sale_post_rejected E b d (or_introl Hl)). cbn [fst status].
    split; [split; [intros _; left|]|]; reflexivity.
Qed.

Lemma sale_validation_witness :
  SalesApi.post calm (sell [] 5 5 0) db_A
  = (Response 400 (BError "Items are required"), db_A).
Proof.
  apply (proj2 (sale_validation calm (sell [] 5 5 0) db_A)).
  reflexivity.
Defined.



(** ** Invoice numbers are not reused *)

Lemma decimal_value_append (s1 s2 : string) (a : Z) :
  decimal_value (s1 ++ s2) a = decimal_value s2 (decimal_value s1 a).
Proof.
  revert a. induction s1 as [|c s1 IH]; intros a; [reflexivity|].
  change (String c s1 ++ s2)%string with (String c (s1 ++ s2)).
  cbn [decimal_value]. apply IH.
Qed.

Lemma decimal_value_zeros (k : nat) :
  decimal_value (Js.replicate_char k "0") 0 = 0.
Proof. induction k as [|k IH]; [reflexivity|exact IH]. Qed.

Lemma padStart_value (z : Z) :
  0 ≤ z → decimal_value (Js.padStart 3 "0" (Js.String_int z)) 0 = z.
Proof.
  intros Hz. unfold Js.padStart.
  rewrite decimal_value_append, decimal_value_zeros. apply String_int_value, Hz.
Qed.

Lemma append_inv_head (p s1 s2 : string) :
  (p ++ s1)%string = (p ++ s2)%string → s1 = s2.
Proof.
  induction p as [|c p IH]; [auto|].
  change (String c p ++ s1)%string with (String c (p ++ s1)).
  change (String c p ++ s2)%string with (String c (p ++ s2)).
  intros [= H]. apply IH, H.
Qed.

(** Within a year the invoice number determines the sequence number. *)
Lemma invoiceNumber_inj (y : Z) (n1 n2 : nat) :
  SalesApi.invoiceNumber y n1 = SalesApi.invoiceNumber y n2 → n1 = n2.
Proof.
  unfold SalesApi.invoiceNumber. intros H.
  do 3 apply append_inv_head in H.
  apply (f_equal (λ s, decimal_value s 0)) in H.
  rewrite !padStart_value in H by lia. lia.
Qed.

(** X4.  Of two sales recorded one after the other in the same calendar
    year, with any requests served in between, the invoice numbers are
    different: the later sale never repeats the number of the earlier one. *)
Theorem invoice_numbers_differ
    (E1 E2 : env) (b1 b2 : SalesApi.request) (t : list (env * request))
    (d d1 d2 : db) (number1 number2 : string) (total1 total2 : Qc) :
  SalesApi.post E1 b1 d = (Response 201 (BInvoice number1 total1), d1) →
  SalesApi.post E2 b2 (run t d1) = (Response 201 (BInvoice number2 total2), d2) →
  year (today E1) = year (today E2) →
  number1 ≠ number2.
Proof.
  intros H1 H2 Hy.
  destruct (sale_post_201 _ _ _ _ _ _ H1) as (l1 & _ & _ & -> & ->).
  destruct (sale_post_201 _ _ _ _ _ _ H2) as (l2 & _ & _ & -> & _).
  rewrite Hy. intros Heq. apply invoiceNumber_inj in Heq.
  pose proof (sales_length_run t (sale_committed E1 b1 l1 d)) as Hle.
  cbn [sale_committed sales] in Hle. rewrite length_app in Hle.
  cbn [length] in Hle. lia.
Qed.

Lemma invoice_numbers_differ_witness :
  "INV-2024-001"%string ≠ "INV-2024-002"%string.
Proof.
  apply (invoice_numbers_differ calm calm (sell [line 1 30 10] 5 5 0)
           (sell [line 1 10 10] 0 0 0) [(calm, PostExpense (spend 50))]
           db_A db_B
           (snd (SalesApi.post calm (sell [line 1 10 10] 0 0 0) db_D))
           "INV-2024-001"%string "INV-2024-002"%string (num 310) (num 100)).
  - vm_compute. reflexivity.
  - vm_compute. reflexivity.
  - reflexivity.
Defined.

(** ** What no request does to the tables *)

Lemma dispatch_tables (E : env) (r : request) (d : db) :
  purchases d `prefix_of` purchases (snd (dispatch E r d))
  ∧ sales d `prefix_of` sales (snd (dispatch E r d))
  ∧ expenses d `prefix_of` expenses (snd (dispatch E r d)).
Proof.
  destruct r as [b|b|b|b|q]; cbn [dispatch].
  - rewrite item_post_eq.
    destruct (InventoryApi.missing_fields b); [done|].
    destruct (faults E 0%nat); done.
  - destruct (purchase_post_outcomes E b d) as [-> | [-> | (_ & _ & ->)]];
      [done..|].
    cbn [snd purchase_committed purchases sales expenses].
    split; [apply prefix_app_r; done|done].
  - destruct (sale_post_outcomes E b d) as [-> | [-> | (l & _ & _ & ->)]];
      [done..|].
    cbn [snd sale_committed purchases sales expenses].
    split; [done|]. split; [apply prefix_app_r; done|done].
  - rewrite expense_post_eq.
    destruct (ExpensesApi.missing_fields b); [done|].
    destruct (faults E 0%nat); [done|].
    cbn [snd purchases sales expenses].
    split; [done|]. split; [done|apply prefix_app_r; done].
  - rewrite report_get_db. done.
Qed.

(** X5.  The three ledgers are append-only: after any sequence of requests,
    the purchase, sale and expense records that were there are still there,
    unchanged and in the same order, at the head of their tables. *)
Theorem ledgers_only_grow (t : list (env * request)) (d : db) :
  purchases d `prefix_of` purchases (run t d)
  ∧ sales d `prefix_of` sales (run t d)
  ∧ expenses d `prefix_of` expenses (run t d).
Proof.
  revert d. induction t as [|[E r] t IH]; intros d; [done|].
  unfold run. cbn [fold_left]. fold (run t (snd (dispatch E r d))).
  destruct (dispatch_tables E r d) as (Hp & Hs & He).
  destruct (IH (snd (dispatch E r d))) as (Hp' & Hs' & He').
  split; [|split]; etrans; eassumption.
Qed.

Lemma identity_deduct_all (l : list sale_item) :
  ∀ (inv : gmap Z inventory_row) (i : Z) (row : inventory_row),
    inv !! i = Some row →
    ∃ row', deduct_all l inv !! i = Some row' ∧ identity row' = identity row.
Proof.
  induction l as [|item l IH]; intros inv i row Hrow; [eauto|].
  unfold deduct_all. cbn [fold_left]. fold (deduct_all l (deduct item inv)).
  assert (H : ∃ row1, deduct item inv !! i = Some row1
                      ∧ identity row1 = identity row).
  { unfold deduct. destruct (SalesApi.deducts item); [|eauto].
    rewrite lookup_alter. case_decide; [|eauto].
    subst. rewrite Hrow. eauto. }
  destruct H as (row1 & H1 & Hid1).
  destruct (IH _ _ _ H1) as (row' & H' & Hid'). exists row'.
  split; [exact H'|congruence].
Qed.

Lemma dispatch_identity (E : env) (r : request) (d : db) (i : Z)
    (row : inventory_row) :
  inventory d !! i = Some row →
  ∃ row', inventory (snd (dispatch E r d)) !! i = Some row'
          ∧ identity row' = identity row.
Proof.
  intros Hrow. destruct r as [b|b|b|b|q]; cbn [dispatch].
  - rewrite item_post_eq.
    destruct (InventoryApi.missing_fields b); [eauto|].
    destruct (faults E 0%nat); [eauto|]. cbn [snd inventory].
    rewrite lookup_insert_ne; [eauto|].
    intros Heq. pose proof (next_item_id_fresh (inventory d)) as Hfresh.
    rewrite Heq in Hfresh. congruence.
  - destruct (purchase_post_outcomes E b d) as [-> | [-> | (_ & _ & ->)]];
      [eauto..|].
    cbn [snd purchase_committed inventory]. rewrite lookup_alter.
    case_decide as Hi; [|eauto]. rewrite Hi, Hrow. eauto.
  - destruct (sale_post_outcomes E b d) as [-> | [-> | (l & _ & _ & ->)]];
      [eauto..|].
    cbn [snd sale_committed inventory]. apply identity_deduct_all, Hrow.
  - rewrite expense_post_eq.
    destruct (ExpensesApi.missing_fields b); [eauto|].
    destruct (faults E 0%nat); eauto.
  - rewrite report_get_db. eauto.
Qed.

(** X6.  No request deletes or renames an inventory item: after any
    sequence of requests every item that was in the inventory is still
    there under the same id with the same name, category, HSN/SAC code,
    rate and specs; only its quantity may have changed. *)
Theorem items_keep_identity (t : list (env * request)) (d : db) (i : Z)
    (row : inventory_row) :
  inventory d !! i = Some row →
  ∃ row', inventory (run t d) !! i = Some row' ∧ identity row' = identity row.
Proof.
  revert d row. induction t as [|[E r] t IH]; intros d row Hrow; [eauto|].
  unfold run. cbn [fold_left]. fold (run t (snd (dispatch E r d))).
  destruct (dispatch_identity E r d i row Hrow) as (row1 & H1 & Hid1).
  destruct (IH _ _ H1) as (row' & H' & Hid'). exists row'.
  split; [exact H'|congruence].
Qed.

Lemma items_keep_identity_witness :
  ∃ row', inventory db_D !! 1 = Some row'
          ∧ identity row'
            = ("Widget"%string, "Other"%string, None, num 10, None).
Proof.
  apply (items_keep_identity
           [(calm, PostPurchase (buy 1 50 9));
            (calm, PostSale (sell [line 1 30 10] 5 5 0));
            (calm, PostExpense (spend 50))] db_created 1
           (InventoryRow "Widget" "Other" None (num 100) (num 10) None)).
  vm_compute. reflexivity.
Defined.

(** ** Conservation along any trace *)





(** ** The inventory route: a created item *)



(** ** The reports route *)

Lemma report_get_window (E : env) (q : ReportsApi.query) (d : db) :
  (∀ k, faults E k = false) →
  summary_of (fst (ReportsApi.get E q d))
  = Some (window_summary (fst (ReportsApi.window E q))
                         (snd (ReportsApi.window E q)) d).
Proof.
  intros Hf. destruct (report_get_summary E q d Hf) as [detail ->].
  unfold summary_of. cbn [json].
  destruct (ReportsApi.window E q) as [lo hi]. reflexivity.
Qed.

(** X9.  The reports route never writes: whatever the query and whichever
    queries fail, the database after the request is the database before.
    When one of its three aggregate queries fails, or with detail=true one
    of the three listing queries, the answer is 500 "Failed to fetch
    reports". *)
Theorem report_reads_only (E : env) (q : ReportsApi.query) (d : db) :
  snd (ReportsApi.get E q d) = d
  ∧ ((∃ k, (k < 3)%nat ∧ faults E k = true) →
     fst (ReportsApi.get E q d) = Response 500 (BError "Failed to fetch reports"))
  ∧ (ReportsApi.detail q = Some "true"%string →
     (∃ k, (k < 6)%nat ∧ faults E k = true) →
     fst (ReportsApi.get E q d) = Response 500 (BError "Failed to fetch reports")).
Proof.
  split; [apply report_get_db|].
  unfold ReportsApi.get, ReportsApi.handler.
  destruct (ReportsApi.window E q) as [lo hi].
  unfold serve, try_catch, Sql.total_sales, Sql.total_purchases,
    Sql.total_expenses, select, bind, call, read, ret.
  cbn [issued store txn working default].
  split.
  - intros (k & Hk & Hfk).
    destruct (faults E 0%nat) eqn:H0; [reflexivity|];
      cbn [issued store txn working default].
    destruct (faults E 1%nat) eqn:H1; [reflexivity|];
      cbn [issued store txn working default].
    destruct (faults E 2%nat) eqn:H2; [reflexivity|].
    exfalso.
    destruct k as [|[|[|k]]]; [congruence..|lia].
  - intros Hd (k & Hk & Hfk).
    destruct (faults E 0%nat) eqn:H0; [reflexivity|];
      cbn [issued store txn working default].
    destruct (faults E 1%nat) eqn:H1; [reflexivity|];
      cbn [issued store txn working default].
    destruct (faults E 2%nat) eqn:H2; [reflexivity|];
      cbn [issued store txn working default].
    rewrite bool_decide_eq_true_2 by exact Hd.
    cbn [issued store txn working default].
    destruct (faults E 3%nat) eqn:H3; [reflexivity|];
      cbn [issued store txn working default].
    destruct (faults E 4%nat) eqn:H4; [reflexivity|];
      cbn [issued store txn working default].
    destruct (faults E 5%nat) eqn:H5; [reflexivity|].
    exfalso.
    destruct k as [|[|[|[|[|[|k]]]]]]; [congruence..|lia].
Qed.

Lemma report_reads_only_witness :
  fst (ReportsApi.get (failing 4)
         (ReportsApi.Query None None (Some "true"%string)) db_D)
  = Response 500 (BError "Failed to fetch reports").
Proof.
  apply (proj2 (proj2 (report_reads_only (failing 4)
           (ReportsApi.Query None None (Some "true"%string)) db_D))).
  - reflexivity.
  - exists 4%nat. split; [lia|reflexivity].
Defined.



Lemma date_leb_trans (a b c : date) :
  date_leb a b = true → date_leb b c = true → date_leb a c = true.
Proof.
  unfold date_leb.
  rewrite !orb_true_iff, !andb_true_iff, !orb_true_iff, !andb_true_iff,
    !Z.ltb_lt, !Z.eqb_eq, !Z.leb_le.
  lia.
Qed.

Lemma filter_none {A} (P : A → Prop) `{∀ x, Decision (P x)} (l : list A) :
  (∀ x, ¬ P x) → filter P l = [].
Proof.
  intros HP. induction l as [|x l IH]; [reflexivity|].
  rewrite filter_cons. case_decide; [exfalso; eapply HP; eassumption|exact IH].
Qed.

(** X11.  A report over a window whose end lies before its start finds no
    record: sales, purchases, expenses and net profit are all 0. *)
Theorem report_inverted_window (E : env) (lo hi : date) (dt : option string)
    (d : db) :
  date_leb lo hi = false → (∀ k, faults E k = false) →
  summary_of (fst (ReportsApi.get E (ReportsApi.Query (Some lo) (Some hi) dt) d))
  = Some (Summary 0%Qc 0%Qc 0%Qc 0%Qc).
Proof.
  intros Hinv Hf. rewrite report_get_window by exact Hf.
  cbn [ReportsApi.window ReportsApi.from ReportsApi.to fst snd].
  assert (Hno : ∀ x, between lo hi x ≠ true).
  { intros x Hx. unfold between in Hx. apply andb_true_iff in Hx as [H1 H2].
    rewrite (date_leb_trans _ _ _ H1 H2) in Hinv. discriminate. }
  unfold window_summary, Sql.sales_between, Sql.purchases_between,
    Sql.expenses_between.
  rewrite !filter_none by (intros x; apply Hno).
  cbn [fmap list_fmap sum_Qc foldr]. do 2 f_equal.
  all: try (apply Qc_is_canon; reflexivity).
Qed.

Lemma report_inverted_window_witness :
  summary_of (fst (ReportsApi.get calm
     (ReportsApi.Query (Some (Date 2024 6 30)) (Some (Date 2024 6 1)) None) db_D))
  = Some (Summary 0%Qc 0%Qc 0%Qc 0%Qc).
Proof.
  apply (report_inverted_window calm (Date 2024 6 30) (Date 2024 6 1) None db_D).
  - reflexivity.
  - reflexivity.
Defined.

(** X12.  With detail=true and no failing query the report carries the three
    lists of records dated within the window, and its summary is the sum
    over exactly those lists; with any other value of detail it carries no
    list. *)
Theorem report_detail_matches_summary (E : env) (q : ReportsApi.query) (d : db) :
  (∀ k, faults E k = false) →
  (ReportsApi.detail q = Some "true"%string →
   ∃ s ss ps xs,
     fst (ReportsApi.get E q d) = Response 200 (BReport s (Some (ss, ps, xs)))
     ∧ sum_sales s = sum_Qc (s_grand_total <$> ss)
     ∧ sum_purchases s = sum_Qc ((λ r, p_quantity r * p_rate r)%Qc <$> ps)
     ∧ sum_expenses s = sum_Qc (e_amount <$> xs)
     ∧ (∀ r, r ∈ ss ↔ r ∈ sales d
                      ∧ between (fst (ReportsApi.window E q))
                                (snd (ReportsApi.window E q)) (s_date r) = true)
     ∧ (∀ r, r ∈ ps ↔ r ∈ purchases d
                      ∧ between (fst (ReportsApi.window E q))
                                (snd (ReportsApi.window E q)) (p_date r) = true)
     ∧ (∀ r, r ∈ xs ↔ r ∈ expenses d
                      ∧ between (fst (ReportsApi.window E q))
                                (snd (ReportsApi.window E q)) (e_date r) = true))
  ∧ (ReportsApi.detail q ≠ Some "true"%string →
     detail_of (fst (ReportsApi.get E q d)) = None).
Proof.
  intros Hf. unfold ReportsApi.get, ReportsApi.handler.
  destruct (ReportsApi.window E q) as [lo hi]. cbn [fst snd].
  unfold serve, try_catch, Sql.total_sales, Sql.total_purchases,
    Sql.total_expenses, select, bind, call, read, ret.
  cbn [issued store txn working default].
  rewrite !Hf. cbn [issued store txn working default].
  split.
  - intros Hd. rewrite bool_decide_eq_true_2 by exact Hd.
    cbn [issued store txn working default].
    rewrite !Hf. cbn [issued store txn working default fst].
    eexists _, _, _, _. split; [reflexivity|].
    cbn [sum_sales sum_purchases sum_expenses].
    split; [reflexivity|]. split; [reflexivity|]. split; [reflexivity|].
    unfold Sql.sales_between, Sql.purchases_between, Sql.expenses_between.
    split; [|split]; intros r; rewrite list_elem_of_filter; tauto.
  - intros Hd. rewrite bool_decide_eq_false_2 by exact Hd. reflexivity.
Qed.

Lemma report_detail_matches_summary_witness :
  ∃ s ss ps xs,
    fst (ReportsApi.get calm (ReportsApi.Query None None (Some "true"%string)) db_D)
    = Response 200 (BReport s (Some (ss, ps, xs)))
    ∧ sum_sales s = sum_Qc (s_grand_total <$> ss)
    ∧ sum_purchases s = sum_Qc ((λ r, p_quantity r * p_rate r)%Qc <$> ps)
    ∧ sum_expenses s = sum_Qc (e_amount <$> xs)
    ∧ (∀ r, r ∈ ss ↔ r ∈ sales db_D
                     ∧ between (Date 2024 6 1) (Date 2024 6 30) (s_date r) = true)
    ∧ (∀ r, r ∈ ps ↔ r ∈ purchases db_D
                     ∧ between (Date 2024 6 1) (Date 2024 6 30) (p_date r) = true)
    ∧ (∀ r, r ∈ xs ↔ r ∈ expenses db_D
                     ∧ between (Date 2024 6 1) (Date 2024 6 30) (e_date r) = true).
Proof.
  apply (proj1 (report_detail_matches_summary calm
           (ReportsApi.Query None None (Some "true"%string)) db_D
           (λ _, eq_refl))).
  reflexivity.
Defined.

(** ** What the routes that write show in the report *)








(** ** The login route *)

Lemma or_else_truthy (x : option string) (fallback : string) :
  fallback ≠ EmptyString → Js.truthy_str (Some (or_else x fallback)) = true.
Proof.
  intros Hfb. unfold or_else. destruct x as [s|]; cbn [Js.truthy_str].
  - destruct (bool_decide (s = EmptyString)) eqn:Hs; cbn [negb from_option id].
    + apply negb_true_iff, bool_decide_eq_false_2, Hfb.
    + rewrite Hs. reflexivity.
  - apply negb_true_iff, bool_decide_eq_false_2, Hfb.
Qed.

Section Login.

Variable sql_eq : string → string → bool.

(** Every outcome of a POST with both credentials present. *)
Lemma login_post (E : env) (V : vars) (u p : string)
    (users : list AuthApi.user_row) :
  Js.truthy_str (Some u) = true → Js.truthy_str (Some p) = true →
  AuthApi.login sql_eq E V "POST" (AuthApi.Credentials (Some u) (Some p)) users
  = if configured V && (faults E 0%nat || faults E 1%nat || faults E 2%nat)
    then AuthApi.Response 500 None (AuthApi.Error "Internal Server Error")
    else if (configured V
             && bool_decide (0 < length (AuthApi.select_user sql_eq u p users))%nat)
            || (String.eqb u (or_else (DEFAULT_USER V) "123456")
                && String.eqb p (or_else (DEFAULT_PASSWORD V) "123456"))
    then AuthApi.Response 200 None (AuthApi.User u)
    else AuthApi.Response 401 None (AuthApi.Error "Invalid credentials").
Proof.
  intros Hu Hp. unfold AuthApi.login, AuthApi.handler.
  cbn [AuthApi.userId AuthApi.password String.eqb Ascii.eqb Bool.eqb negb].
  rewrite Hu, Hp. cbn [negb orb default from_option id].
  fold (configured V). unfold Pool.serve, Pool.try_catch, Pool.bind.
  destruct (configured V); cbn [andb orb].
  - unfold Pool.finally, Pool.query, Pool.bind, Pool.ret. cbn [fst snd].
    destruct (faults E 0%nat); [reflexivity|]. cbn [fst snd orb].
    destruct (faults E 1%nat); cbn [fst snd orb].
    { destruct (faults E 2%nat); reflexivity. }
    destruct (faults E 2%nat); [reflexivity|]. cbn [fst snd].
    destruct (bool_decide (0 < length (AuthApi.select_user sql_eq u p users))%nat);
      cbn [orb negb andb]; [reflexivity|].
    destruct (String.eqb u _ && String.eqb p _); reflexivity.
  - unfold Pool.ret. cbn [orb negb andb].
    destruct (String.eqb u _ && String.eqb p _); reflexivity.
Qed.

(** X16.  The default credentials of the environment (123456 / 123456 when
    DEFAULT_USER and DEFAULT_PASSWORD are unset) are accepted whatever the
    users table holds, also when it stores another password for that user:
    with the database not configured, or configured and reachable, the
    answer is 200 with the user id. *)
Theorem default_login_is_accepted (E : env) (V : vars) (u p : string)
    (users : list AuthApi.user_row) :
  default_credentials V u p →
  (configured V = true → ∀ k, (k < 3)%nat → faults E k = false) →
  AuthApi.login sql_eq E V "POST" (AuthApi.Credentials (Some u) (Some p)) users
  = AuthApi.Response 200 None (AuthApi.User u).
Proof.
  intros [Hu Hp] Hf. rewrite login_post.
  - destruct (configured V).
    + rewrite !Hf by (reflexivity || lia). cbn [orb andb].
      rewrite <- Hu, <- Hp, !String.eqb_refl. cbn [andb].
      rewrite orb_true_r. reflexivity.
    + cbn [andb orb]. rewrite <- Hu, <- Hp, !String.eqb_refl. reflexivity.
  - rewrite Hu. apply or_else_truthy. discriminate.
  - rewrite Hp. apply or_else_truthy. discriminate.
Qed.

(** X17.  For a POST with both credentials, when the database calls do not
    fail: the answer is 200 exactly when the database is configured and the
    users table has a row matching user id and password, or the credentials
    are the default ones; otherwise it is 401 "Invalid credentials". *)
Theorem login_decision (E : env) (V : vars) (u p : string)
    (users : list AuthApi.user_row) :
  Js.truthy_str (Some u) = true → Js.truthy_str (Some p) = true →
  (∀ k, faults E k = false) →
  (AuthApi.status (AuthApi.login sql_eq E V "POST"
                     (AuthApi.Credentials (Some u) (Some p)) users) = 200
   ↔ (configured V = true
      ∧ ∃ r, r ∈ users ∧ AuthApi.row_matches sql_eq u p r = true)
     ∨ default_credentials V u p)
  ∧ (AuthApi.status (AuthApi.login sql_eq E V "POST"
                       (AuthApi.Credentials (Some u) (Some p)) users) ≠ 200 →
     AuthApi.login sql_eq E V "POST" (AuthApi.Credentials (Some u) (Some p)) users
     = AuthApi.Response 401 None (AuthApi.Error "Invalid credentials")).
Proof.
  intros Hu Hp Hf. rewrite login_post by assumption.
  rewrite !Hf. cbn [orb]. rewrite andb_false_r.
  assert (Hrows : bool_decide (0 < length (AuthApi.select_user sql_eq u p users))%nat
                  = true
                  ↔ ∃ r, r ∈ users ∧ AuthApi.row_matches sql_eq u p r = true).
  { rewrite bool_decide_eq_true. unfold AuthApi.select_user. split.
    - intros Hlen.
      destruct (filter _ users) as [|r rest] eqn:Hfl; [cbn in Hlen; lia|].
      exists r. assert (Hin : r ∈ filter (λ r, AuthApi.row_matches sql_eq u p r = true) users)
        by (rewrite Hfl; apply list_elem_of_here).
      apply list_elem_of_filter in Hin. tauto.
    - intros (r & Hin & Hm).
      assert (Hin' : r ∈ filter (λ r, AuthApi.row_matches sql_eq u p r = true) users)
        by (apply list_elem_of_filter; auto).
      destruct (filter _ users); [inversion Hin'|cbn; lia]. }
  assert (Hdef : String.eqb u (or_else (DEFAULT_USER V) "123456")
                 && String.eqb p (or_else (DEFAULT_PASSWORD V) "123456") = true
                 ↔ default_credentials V u p).
  { unfold default_credentials. rewrite andb_true_iff, !String.eqb_eq. tauto. }
  destruct ((configured V && bool_decide _) || (String.eqb u _ && String.eqb p _))
    eqn:Hok; cbn [AuthApi.status].
  - split; [|intros H; contradiction]. split; [|reflexivity]. intros _.
    apply orb_true_iff in Hok as [Hok|Hok].
    + apply andb_true_iff in Hok as [Hc Hr]. left. split; [exact Hc|].
      apply Hrows, Hr.
    + right. apply Hdef, Hok.
  - split; [|reflexivity]. split; [discriminate|]. intros H. exfalso.
    apply orb_false_iff in Hok as [Hok1 Hok2].
    destruct H as [[Hc Hr]|Hd].
    + apply Hrows in Hr. rewrite Hc, Hr in Hok1. discriminate.
    + apply Hdef in Hd. rewrite Hd in Hok2. discriminate.
Qed.

(** X18.  When the database is configured and one of its three calls
    (connect, select, end) fails, the answer is 500 "Internal Server Error",
    for the default credentials too: the fallback is not reached. *)
Theorem login_fails_with_database (E : env) (V : vars) (u p : string)
    (users : list AuthApi.user_row) :
  Js.truthy_str (Some u) = true → Js.truthy_str (Some p) = true →
  configured V = true →
  (∃ k, (k < 3)%nat ∧ faults E k = true) →
  AuthApi.login sql_eq E V "POST" (AuthApi.Credentials (Some u) (Some p)) users
  = AuthApi.Response 500 None (AuthApi.Error "Internal Server Error").
Proof.
  intros Hu Hp Hc (k & Hk & Hfk). rewrite login_post by assumption.
  rewrite Hc. cbn [andb].
  replace (faults E 0%nat || faults E 1%nat || faults E 2%nat) with true;
    [reflexivity|].
  symmetry. destruct k as [|[|[|k]]]; [..|lia]; rewrite Hfk;
    rewrite ?orb_true_r; reflexivity.
Qed.

(** X19.  When DB_HOST, DB_USER or DB_NAME is unset or empty, the login
    route makes no database call: its answer depends neither on the users
    table nor on the state of the driver, and is never 500. *)
Theorem login_without_database (E E' : env) (V : vars) (method : string)
    (b : AuthApi.credentials) (users users' : list AuthApi.user_row) :
  configured V = false →
  AuthApi.login sql_eq E V method b users
  = AuthApi.login sql_eq E' V method b users'
  ∧ AuthApi.status (AuthApi.login sql_eq E V method b users) ≠ 500.
Proof.
  intros Hc. unfold AuthApi.login, AuthApi.handler. fold (configured V).
  rewrite Hc.
  destruct (negb (String.eqb method "POST")); [split; [reflexivity|discriminate]|].
  destruct (negb (Js.truthy_str (AuthApi.userId b))
            || negb (Js.truthy_str (AuthApi.password b)));
    [split; [reflexivity|discriminate]|].
  unfold Pool.serve, Pool.try_catch, Pool.bind, Pool.ret. cbn [orb negb andb].
  destruct (String.eqb _ _ && String.eqb _ _);
    split; (reflexivity || discriminate).
Qed.

End Login.

Lemma default_login_is_accepted_witness :
  AuthApi.login String.eqb calm with_db "POST"
    (AuthApi.Credentials (Some "123456"%string) (Some "123456"%string))
    changed_users
  = AuthApi.Response 200 None (AuthApi.User "123456").
Proof.
  apply (default_login_is_accepted String.eqb calm with_db "123456" "123456"
           changed_users).
  - split; reflexivity.
  - intros _ k _. reflexivity.
Defined.

Lemma login_decision_witness :
  AuthApi.login String.eqb calm with_db "POST"
    (AuthApi.Credentials (Some "123456"%string) (Some "guess"%string))
    changed_users
  = AuthApi.Response 401 None (AuthApi.Error "Invalid credentials").
Proof.
  apply (proj2 (login_decision String.eqb calm with_db "123456" "guess"
                  changed_users eq_refl eq_refl (λ _, eq_refl))).
  vm_compute. discriminate.
Defined.

Lemma login_fails_with_database_witness :
  AuthApi.login String.eqb (failing 1) with_db "POST"
    (AuthApi.Credentials (Some "123456"%string) (Some "123456"%string))
    changed_users
  = AuthApi.Response 500 None (AuthApi.Error "Internal Server Error").
Proof.
  apply (login_fails_with_database String.eqb (failing 1) with_db
           "123456" "123456" changed_users).
  - reflexivity.
  - reflexivity.
  - reflexivity.
  - exists 1%nat. split; [lia|reflexivity].
Defined.

Lemma login_without_database_witness :
  AuthApi.login String.eqb (failing 0) bare "POST"
    (AuthApi.Credentials (Some "123456"%string) (Some "s3cret"%string))
    changed_users
  = AuthApi.login String.eqb calm bare "POST"
      (AuthApi.Credentials (Some "123456"%string) (Some "s3cret"%string)) []
  ∧ AuthApi.status
      (AuthApi.login String.eqb (failing 0) bare "POST"
         (AuthApi.Credentials (Some "123456"%string) (Some "s3cret"%string))
         changed_users) ≠ 500.
Proof.
  apply (login_without_database String.eqb (failing 0) calm bare "POST"
           (AuthApi.Credentials (Some "123456"%string) (Some "s3cret"%string))
           changed_users []).
  reflexivity.
Defined.

(** ** The settings route *)

Lemma settings_post (E : env) (b : SettingsApi.settings_row)
    (t : gmap Z SettingsApi.settings_row) :
  SettingsApi.serve E "POST" b t
  = if faults E 0%nat || faults E 1%nat
    then (SettingsApi.Response 500 None (SettingsApi.Error "Failed to update settings"), t)
    else (SettingsApi.Response 200 None (SettingsApi.Message "Settings updated"),
          <[1 := SettingsApi.parameters b]> t).
Proof.
  unfold SettingsApi.serve, SettingsApi.handler.
  cbn [String.eqb Ascii.eqb Bool.eqb].
  unfold Pool.serve, Pool.try_catch, Pool.bind, Pool.query, Pool.ret.
  cbn [fst snd].
  destruct (faults E 0%nat); [reflexivity|]. cbn [fst snd orb].
  destruct (t !! 1) as [r|] eqn:Hr; cbn [length bool_decide];
    (case_bool_decide as Hlen; [|try (cbn in Hlen; lia)]);
    try (cbn in Hlen; lia); cbn [fst snd];
    (destruct (faults E 1%nat); [reflexivity|]); cbn [fst snd].
  - f_equal. apply map_eq. intros j. rewrite lookup_alter, lookup_insert.
    case_decide; [|reflexivity]. subst. rewrite Hr. reflexivity.
  - reflexivity.
Qed.

Lemma settings_get (E : env) (b : SettingsApi.settings_row)
    (t : gmap Z SettingsApi.settings_row) :
  SettingsApi.serve E "GET" b t
  = if faults E 0%nat
    then (SettingsApi.Response 500 None (SettingsApi.Error "Failed to fetch settings"), t)
    else (SettingsApi.Response 200 None
            (SettingsApi.Settings
               (match t !! 1 with
                | Some r => SettingsApi.object_of 1 r
                | None => ∅
                end)), t).
Proof.
  unfold SettingsApi.serve, SettingsApi.handler.
  cbn [String.eqb Ascii.eqb Bool.eqb].
  unfold Pool.serve, Pool.try_catch, Pool.bind, Pool.query, Pool.ret.
  cbn [fst snd].
  destruct (faults E 0%nat); [reflexivity|]. cbn [fst snd].
  destruct (t !! 1) as [r|]; cbn [head default from_option id].
  - replace (SettingsApi.object_of 1 r !! "password"%string) with (@None SettingsApi.value)
      by (symmetry; vm_compute; reflexivity).
    reflexivity.
  - rewrite lookup_empty. reflexivity.
Qed.

(** X20.  Settings saved are settings read: after a POST that succeeds, a
    GET answers 200 with the row of id 1, each column holding the field of
    the request (an empty or missing field as null).  No column is left
    out: the stored default_password is part of the answer. *)
Theorem settings_round_trip (E1 E2 : env) (b b' : SettingsApi.settings_row)
    (t : gmap Z SettingsApi.settings_row) :
  (∀ k, faults E1 k = false) → (∀ k, faults E2 k = false) →
  ∃ obj,
    fst (SettingsApi.serve E2 "GET" b' (snd (SettingsApi.serve E1 "POST" b t)))
    = SettingsApi.Response 200 None (SettingsApi.Settings obj)
    ∧ obj = SettingsApi.object_of 1 (SettingsApi.parameters b)
    ∧ obj !! "default_password"%string
      = Some (SettingsApi.column (Js.or_null (SettingsApi.default_password b)))
    ∧ obj !! "default_user"%string
      = Some (SettingsApi.column (Js.or_null (SettingsApi.default_user b)))
    ∧ obj !! "password"%string = None.
Proof.
  intros H1 H2. rewrite settings_post, !H1. cbn [orb snd].
  rewrite settings_get, H2. cbn [fst]. rewrite lookup_insert_eq.
  eexists. split; [reflexivity|]. split; [reflexivity|].
  split; [|split]; vm_compute; reflexivity.
Qed.

Lemma settings_round_trip_witness :
  ∃ obj,
    fst (SettingsApi.serve calm "GET" SettingsApi.blank
           (snd (SettingsApi.serve calm "POST" acme old_settings)))
    = SettingsApi.Response 200 None (SettingsApi.Settings obj)
    ∧ obj = SettingsApi.object_of 1 (SettingsApi.parameters acme)
    ∧ obj !! "default_password"%string
      = Some (SettingsApi.column (Js.or_null (SettingsApi.default_password acme)))
    ∧ obj !! "default_user"%string
      = Some (SettingsApi.column (Js.or_null (SettingsApi.default_user acme)))
    ∧ obj !! "password"%string = None.
Proof.
  apply (settings_round_trip calm calm acme SettingsApi.blank old_settings).
  - reflexivity.
  - reflexivity.
Defined.

(** X21.  A POST of settings replaces the whole row of id 1 and nothing
    else: when neither of its two statements fails, row 1 afterwards is the
    request with every empty or missing field as NULL, whatever the row held
    before (no field is kept), and the rows of other ids are as they were;
    when a statement fails the answer is 500 and the table is unchanged. *)
Theorem settings_post_replaces_row (E : env) (b : SettingsApi.settings_row)
    (t : gmap Z SettingsApi.settings_row) :
  ((∀ k, (k < 2)%nat → faults E k = false) →
   fst (SettingsApi.serve E "POST" b t)
   = SettingsApi.Response 200 None (SettingsApi.Message "Settings updated")
   ∧ snd (SettingsApi.serve E "POST" b t) !! 1 = Some (SettingsApi.parameters b)
   ∧ ∀ j, j ≠ 1 → snd (SettingsApi.serve E "POST" b t) !! j = t !! j)
  ∧ ((∃ k, (k < 2)%nat ∧ faults E k = true) →
     SettingsApi.serve E "POST" b t
     = (SettingsApi.Response 500 None
          (SettingsApi.Error "Failed to update settings"), t)).
Proof.
  rewrite settings_post. split.
  - intros Hf. rewrite !Hf by lia. cbn [orb fst snd].
    split; [reflexivity|]. split; [apply lookup_insert_eq|].
    intros j Hj. apply lookup_insert_ne. congruence.
  - intros (k & Hk & Hfk).
    replace (faults E 0%nat || faults E 1%nat) with true; [reflexivity|].
    symmetry. destruct k as [|[|k]]; [..|lia]; rewrite Hfk;
      rewrite ?orb_true_r; reflexivity.
Qed.

(** The bank name of the old row is gone after a POST that does not mention
    it; row 7 stays. *)
Lemma settings_post_replaces_row_witness :
  fst (SettingsApi.serve calm "POST" acme old_settings)
  = SettingsApi.Response 200 None (SettingsApi.Message "Settings updated")
  ∧ snd (SettingsApi.serve calm "POST" acme old_settings) !! 1
    = Some (SettingsApi.parameters acme)
  ∧ ∀ j, j ≠ 1 →
      snd (SettingsApi.serve calm "POST" acme old_settings) !! j
      = old_settings !! j.
Proof.
  apply (proj1 (settings_post_replaces_row calm acme old_settings)).
  intros k _. reflexivity.
Defined.

(** X22.  A GET of settings never changes the table; on a table without a
    row of id 1 it answers 200 with the empty object, and when its query
    fails it answers 500 "Failed to fetch settings". *)
Theorem settings_get_reads_only (E : env) (b : SettingsApi.settings_row)
    (t : gmap Z SettingsApi.settings_row) :
  snd (SettingsApi.serve E "GET" b t) = t
  ∧ (faults E 0%nat = false → t !! 1 = None →
     fst (SettingsApi.serve E "GET" b t)
     = SettingsApi.Response 200 None (SettingsApi.Settings ∅))
  ∧ (faults E 0%nat = true →
     fst (SettingsApi.serve E "GET" b t)
     = SettingsApi.Response 500 None (SettingsApi.Error "Failed to fetch settings")).
Proof.
  rewrite settings_get. destruct (faults E 0%nat); cbn [fst snd].
  - split; [reflexivity|]. split; [discriminate|reflexivity].
  - split; [reflexivity|]. split; [|discriminate].
    intros _ ->. reflexivity.
Qed.

Lemma settings_get_reads_only_witness :
  fst (SettingsApi.serve calm "GET" SettingsApi.blank ∅)
  = SettingsApi.Response 200 None (SettingsApi.Settings ∅).
Proof.
  apply (proj1 (proj2 (settings_get_reads_only calm SettingsApi.blank ∅))).
  - reflexivity.
  - reflexivity.
Defined.

(** ** The connection pool *)


(** ** The listings *)

Lemma date_leb_total (a b : date) : date_leb a b = true ∨ date_leb b a = true.
Proof.
  unfold date_leb.
  rewrite !orb_true_iff, !andb_true_iff, !orb_true_iff, !andb_true_iff,
    !Z.ltb_lt, !Z.eqb_eq, !Z.leb_le.
  lia.
Qed.

Lemma order_by_date_desc_spec {A} (date_of : A → date) (l : list A) :
  Listing.order_by_date_desc date_of l ≡ₚ l
  ∧ StronglySorted (Listing.newer_first date_of)
                   (Listing.order_by_date_desc date_of l).
Proof.
  assert (Htot : Total (Listing.newer_first date_of)).
  { intros x y. unfold Listing.newer_first. apply date_leb_total. }
  assert (Htr : Transitive (Listing.newer_first date_of)).
  { intros x y z Hxy Hyz. unfold Listing.newer_first in *.
    eapply date_leb_trans; eassumption. }
  split.
  - apply merge_sort_Permutation.
  - apply StronglySorted_merge_sort; assumption.
Qed.

(** X24.  The GET of purchases, of sales and of expenses answers 200 with
    every record of its table, each exactly once, ordered so that no record
    comes before one of a later date; it answers 500 when its query fails;
    in both cases the database is not changed. *)
Theorem listings_are_newest_first (E : env) (d : db) :
  (faults E 0%nat = false →
   (∃ rows, Listing.run (Listing.purchases_get E)
              (Listing.Reply 500 (Listing.Failed "Internal Server Error")) d
            = (Listing.Reply 200 (Listing.Rows rows), d)
            ∧ rows ≡ₚ purchases d
            ∧ StronglySorted (Listing.newer_first p_date) rows)
   ∧ (∃ rows, Listing.run (Listing.sales_get E)
                (Listing.Reply 500 (Listing.Failed "Internal Server Error")) d
              = (Listing.Reply 200 (Listing.Rows rows), d)
              ∧ rows ≡ₚ sales d
              ∧ StronglySorted (Listing.newer_first s_date) rows)
   ∧ (∃ rows, Listing.run (Listing.expenses_get E)
                (Listing.Reply 500 (Listing.Failed "Internal Server Error")) d
              = (Listing.Reply 200 (Listing.Rows rows), d)
              ∧ rows ≡ₚ expenses d
              ∧ StronglySorted (Listing.newer_first e_date) rows))
  ∧ (faults E 0%nat = true →
     Listing.run (Listing.purchases_get E)
       (Listing.Reply 500 (Listing.Failed "Internal Server Error")) d
     = (Listing.Reply 500 (Listing.Failed "Failed to fetch purchases"), d)
     ∧ Listing.run (Listing.sales_get E)
         (Listing.Reply 500 (Listing.Failed "Internal Server Error")) d
       = (Listing.Reply 500 (Listing.Failed "Failed to fetch sales"), d)
     ∧ Listing.run (Listing.expenses_get E)
         (Listing.Reply 500 (Listing.Failed "Internal Server Error")) d
       = (Listing.Reply 500 (Listing.Failed "Failed to fetch expenses"), d)).
Proof.
  unfold Listing.run, Listing.purchases_get, Listing.sales_get,
    Listing.expenses_get, try_catch, select, bind, call, read, ret.
  cbn [issued store txn working default].
  split; intros Hf; rewrite Hf; cbn [issued store txn working default from_option].
  - split; [|split]; eexists; (split; [reflexivity|]);
      apply order_by_date_desc_spec.
  - auto.
Qed.

Lemma listings_are_newest_first_witness :
  (∃ rows, Listing.run (Listing.purchases_get calm)
             (Listing.Reply 500 (Listing.Failed "Internal Server Error")) db_D
           = (Listing.Reply 200 (Listing.Rows rows), db_D)
           ∧ rows ≡ₚ purchases db_D
           ∧ StronglySorted (Listing.newer_first p_date) rows)
  ∧ (∃ rows, Listing.run (Listing.sales_get calm)
               (Listing.Reply 500 (Listing.Failed "Internal Server Error")) db_D
             = (Listing.Reply 200 (Listing.Rows rows), db_D)
             ∧ rows ≡ₚ sales db_D
             ∧ StronglySorted (Listing.newer_first s_date) rows)
  ∧ (∃ rows, Listing.run (Listing.expenses_get calm)
               (Listing.Reply 500 (Listing.Failed "Internal Server Error")) db_D
             = (Listing.Reply 200 (Listing.Rows rows), db_D)
             ∧ rows ≡ₚ expenses db_D
             ∧ StronglySorted (Listing.newer_first e_date) rows).
Proof.
  apply (proj1 (listings_are_newest_first calm db_D)).
  reflexivity.
Defined.

Lemma Forall2_in_l {A B} (P : A → B → Prop) (l : list A) (k : list B) (x : A) :
  Forall2 P l k → x ∈ l → ∃ y, y ∈ k ∧ P x y.
Proof.
  induction 1 as [|a b l k Hab _ IH]; intros Hin; [inversion Hin|].
  apply elem_of_cons in Hin as [->|Hin].
  - exists b. split; [apply list_elem_of_here|exact Hab].
  - destruct (IH Hin) as (y & Hy & HP). exists y.
    split; [apply list_elem_of_further, Hy|exact HP].
Qed.

Lemma Forall2_in_r {A B} (P : A → B → Prop) (l : list A) (k : list B) (y : B) :
  Forall2 P l k → y ∈ k → ∃ x, x ∈ l ∧ P x y.
Proof.
  induction 1 as [|a b l k Hab _ IH]; intros Hin; [inversion Hin|].
  apply elem_of_cons in Hin as [->|Hin].
  - exists a. split; [apply list_elem_of_here|exact Hab].
  - destruct (IH Hin) as (x & Hx & HP). exists x.
    split; [apply list_elem_of_further, Hx|exact HP].
Qed.

(** X25.  The GET of the inventory answers 200 with every inventory row
    once, under its id, each with its specs parsed and with the empty
    object for a row whose specs are NULL or empty; if the specs text of a
    single row does not parse, the whole listing fails with 500.  The
    database is not changed. *)
Theorem inventory_listing {Spec : Type} (parse : string → option Spec)
    (empty : Spec) (E : env) (d : db) :
  faults E 0%nat = false →
  snd (Listing.run (Listing.inventory_get E parse empty)
         (Listing.Reply 500 (Listing.Failed "Internal Server Error")) d) = d
  ∧ ((∀ i row, inventory d !! i = Some row →
        Js.truthy_str (specs row) = true →
        is_Some (parse (default EmptyString (specs row)))) →
     ∃ items,
       fst (Listing.run (Listing.inventory_get E parse empty)
              (Listing.Reply 500 (Listing.Failed "Internal Server Error")) d)
       = Listing.Reply 200 (Listing.Rows items)
       ∧ (∀ i row o, (i, row, o) ∈ items
            ↔ inventory d !! i = Some row
              ∧ Listing.view parse empty (i, row) = Some (i, row, o))
       ∧ length items = size (inventory d))
  ∧ ((∃ i row, inventory d !! i = Some row
               ∧ Js.truthy_str (specs row) = true
               ∧ parse (default EmptyString (specs row)) = None) →
     fst (Listing.run (Listing.inventory_get E parse empty)
            (Listing.Reply 500 (Listing.Failed "Internal Server Error")) d)
     = Listing.Reply 500 (Listing.Failed "Failed to fetch inventory")).
Proof.
  intros Hf.
  unfold Listing.run, Listing.inventory_get, try_catch, select, bind, call,
    read, ret.
  cbn [issued store txn working default from_option]. rewrite Hf.
  cbn [issued store txn working default from_option].
  destruct (mapM (Listing.view parse empty) (map_to_list (inventory d)))
    as [items|] eqn:Hmap; cbn [fst snd store].
  - split; [reflexivity|]. apply mapM_Some in Hmap. split.
    + intros _. exists items. split; [reflexivity|]. split.
      * intros i row o. split.
        -- intros Hin.
           destruct (Forall2_in_r _ _ _ _ Hmap Hin) as ([j r] & Hjr & Hview).
           assert (Heq : j = i ∧ r = row).
           { unfold Listing.view in Hview. cbn [fst snd] in Hview.
             destruct (Js.truthy_str (specs r)).
             - destruct (parse _); cbn in Hview; [|discriminate].
               injection Hview as -> -> _. auto.
             - injection Hview as -> -> _. auto. }
           destruct Heq as [-> ->].
           split; [apply elem_of_map_to_list, Hjr|exact Hview].
        -- intros [Hrow Hview]. apply elem_of_map_to_list in Hrow.
           destruct (Forall2_in_l _ _ _ _ Hmap Hrow) as (y & Hy & Hview').
           rewrite Hview in Hview'. injection Hview' as <-. exact Hy.
      * rewrite <- (Forall2_length _ _ _ Hmap). apply length_map_to_list.
    + intros (i & row & Hrow & Ht & Hp). exfalso.
      apply elem_of_map_to_list in Hrow.
      destruct (Forall2_in_l _ _ _ _ Hmap Hrow) as (y & _ & Hview).
      unfold Listing.view in Hview. cbn [fst snd] in Hview.
      rewrite Ht, Hp in Hview. discriminate.
  - split; [reflexivity|]. split; [|reflexivity].
    intros Hall. exfalso.
    assert (Hsome : is_Some (mapM (Listing.view parse empty)
                               (map_to_list (inventory d)))).
    { apply mapM_is_Some. apply Forall_forall. intros [i row] Hin.
      apply elem_of_map_to_list in Hin. unfold compose, Listing.view.
      cbn [fst snd].
      destruct (Js.truthy_str (specs row)) eqn:Ht; [|eauto].
      destruct (Hall i row Hin Ht) as [o Ho]. rewrite Ho. cbn. eauto. }
    rewrite Hmap in Hsome. destruct Hsome as [? ?]. discriminate.
Qed.

(** With the parser that hands the text over as it is and "{}" for the
    empty object. *)
Lemma inventory_listing_witness :
  ∃ items,
    fst (Listing.run (Listing.inventory_get calm Some "{}"%string)
           (Listing.Reply 500 (Listing.Failed "Internal Server Error")) db_D)
    = Listing.Reply 200 (Listing.Rows items)
    ∧ (∀ i row o, (i, row, o) ∈ items
         ↔ inventory db_D !! i = Some row
           ∧ Listing.view Some "{}"%string (i, row) = Some (i, row, o))
    ∧ length items = size (inventory db_D).
Proof.
  apply (proj1 (proj2 (inventory_listing Some "{}"%string calm db_D eq_refl))).
  intros i row _ _. eauto.
Defined.
